(** * Evaluation harness of main.py: backend choice, timed evaluation loop,
      running averages and progress lines.

    The development embeds [main], [validata], [_time], [AverageMeter] and
    [ProgressMeter] of [src/main.py].  Python statements that touch the
    outside world (printing, the clock, the accelerator, the model and the
    loss) are run in a small monad that threads a [World] and logs every
    such action as an [Event]; a Python exception is an [Err] result that
    cuts the rest of the computation short.

    Numbers.  Python integers are [Z].  Clock readings and the values that
    the loop records are Python floats in the program.  For the loop they
    are taken as exact rationals ([Q]): what is proved of the loop is the
    order of its actions, its exceptions and its counts, and the order of
    the recorded times under a clock that does not run backwards.  The
    arithmetic of the meter itself (rounding, OverflowError) is modelled on
    binary64 floats in the module [F64] below.  *)

From Stdlib Require Import ZArith QArith Lia Lqa List.
From Stdlib Require Floats.
From stdpp Require Import base strings gmap.

Local Open Scope Z_scope.

(** ** Exceptions and results *)

Inductive Exc : Type :=
| AssertionError (msg : string)
| NameError (name : string)
| KeyError (key : string)
| ZeroDivisionError
| OverflowError
| ModelError (msg : string)     (* raised inside [model(inputs)] *)
| LossError (msg : string).     (* raised inside [loss(output, target)] *)

Inductive result (A : Type) : Type :=
| Ok (a : A)
| Err (e : Exc).
Arguments Ok {A} a.
Arguments Err {A} e.

Definition is_ok {A} (r : result A) : bool :=
  match r with Ok _ => true | Err _ => false end.

(** ** Tensors and batches *)

(** Where a tensor lives: an ordinary CPU tensor, a tensor moved with
    [.cuda()], or one converted with [.to_mkldnn()]. *)
Inductive Layout : Type := Dense | Cuda | Mkldnn.

Record Tensor : Type := mkTensor { payload : Z; layout : Layout }.

Definition tensor_cuda (t : Tensor) : Tensor :=
  {| payload := payload t; layout := Cuda |}.

Definition tensor_to_mkldnn (t : Tensor) : Tensor :=
  {| payload := payload t; layout := Mkldnn |}.

(** One item of the iterator: [sample["input"]] is a dict of tensors,
    [sample["target"]] the label tensor. *)
Record Sample : Type := mkSample {
  input : gmap string Tensor;
  target : Tensor
}.

(** ** The three backends named by the banner of [main]. *)
Inductive Backend : Type := Accelerator | OptimizedCPU | PlainCPU.

(** ** Command line arguments ([argparse] namespace).  [cuda] is the
    attribute that [main] adds at line 55. *)
Record Args : Type := mkArgs {
  no_cuda : bool;
  mkldnn : bool;
  evaluate : bool;
  print_freq : Z;
  cuda : bool
}.

Definition set_cuda (a : Args) (c : bool) : Args :=
  {| no_cuda := no_cuda a; mkldnn := mkldnn a; evaluate := evaluate a;
     print_freq := print_freq a; cuda := c |}.

(** ** World and events *)

Inductive Event : Type :=
| EvPrint (line : string)                 (* print(...) outside display *)
| EvReport (batch : nat) (line : string)  (* print(...) in ProgressMeter.display(batch) *)
| EvSync (waited_for : nat)               (* torch.cuda.synchronize() *)
| EvClock (reading : nat) (outstanding : nat)  (* time.time() *)
| EvFetch (batch : nat)                   (* the iterator yields item [batch] *)
| EvForward (batch : nat) (training grad : bool) (inputs : gmap string Tensor)
| EvLoss (batch : nat) (grad : bool) (label : Tensor)
| EvTrain.                                (* train(...) is entered *)

Record World : Type := mkWorld {
  training : bool;      (* model.training *)
  model_layout : Layout;(* where the model's parameters live *)
  grad_enabled : bool;  (* torch.is_grad_enabled() *)
  pending : nat;        (* accelerator work issued and not yet complete *)
  ticks : nat;          (* number of clock readings taken so far *)
  head_replaced : bool  (* default_head.head_fcl was assigned by main *)
}.

Definition set_training (b : bool) (w : World) : World :=
  {| training := b; model_layout := model_layout w;
     grad_enabled := grad_enabled w; pending := pending w; ticks := ticks w;
     head_replaced := head_replaced w |}.
Definition set_model_layout (l : Layout) (w : World) : World :=
  {| training := training w; model_layout := l;
     grad_enabled := grad_enabled w; pending := pending w; ticks := ticks w;
     head_replaced := head_replaced w |}.
Definition set_grad_enabled (b : bool) (w : World) : World :=
  {| training := training w; model_layout := model_layout w;
     grad_enabled := b; pending := pending w; ticks := ticks w;
     head_replaced := head_replaced w |}.
Definition set_pending (n : nat) (w : World) : World :=
  {| training := training w; model_layout := model_layout w;
     grad_enabled := grad_enabled w; pending := n; ticks := ticks w;
     head_replaced := head_replaced w |}.
Definition set_ticks (n : nat) (w : World) : World :=
  {| training := training w; model_layout := model_layout w;
     grad_enabled := grad_enabled w; pending := pending w; ticks := n;
     head_replaced := head_replaced w |}.
Definition set_head_replaced (b : bool) (w : World) : World :=
  {| training := training w; model_layout := model_layout w;
     grad_enabled := grad_enabled w; pending := pending w; ticks := ticks w;
     head_replaced := b |}.

(** ** The monad: state, an event log, and exceptions.  The world and the
    log survive an exception. *)

Record Outcome (A : Type) : Type := mkOutcome {
  events : list Event;
  final : World;
  value : result A
}.
Arguments mkOutcome {A} _ _ _.
Arguments events {A} _.
Arguments final {A} _.
Arguments value {A} _.

Definition M (A : Type) : Type := World -> Outcome A.

Definition ret {A} (a : A) : M A := fun w => mkOutcome [] w (Ok a).

Definition raise {A} (e : Exc) : M A := fun w => mkOutcome [] w (Err e).

Definition bind {A B} (m : M A) (f : A -> M B) : M B :=
  fun w =>
    let o := m w in
    match value o with
    | Err e => mkOutcome (events o) (final o) (Err e)
    | Ok a =>
        let o' := f a (final o) in
        mkOutcome (events o ++ events o') (final o') (value o')
    end.

Declare Scope py_scope.
Delimit Scope py_scope with py.
Notation "x <- c ;; k" := (bind c (fun x => k))
  (at level 100, c at next level, right associativity) : py_scope.
Notation "c ;;; k" := (bind c (fun _ => k))
  (at level 100, right associativity) : py_scope.

Definition emit (ev : Event) : M unit := fun w => mkOutcome [ev] w (Ok tt).

Definition lift {A} (r : result A) : M A := fun w => mkOutcome [] w r.

Definition modify (f : World -> World) : M unit :=
  fun w => mkOutcome [] (f w) (Ok tt).

Definition print (line : string) : M unit := emit (EvPrint line).

(** ** AverageMeter, with values as exact rationals

    This is the meter as the loop uses it: every update there has weight 1
    and a count far below the ints that do not convert to a float, where
    the float meter [F64.update] raises on the same calls and counts alike
    (lemma [update_counts_agree]).  The values it holds are the exact
    ones; the rounded values that Python holds are those of [F64]. *)

Record AverageMeter : Type := mkMeter {
  name : string;
  fmt : string;
  val : Q;
  avg : Q;
  sum : Q;
  count : Z
}.

(** [reset]: all four numbers back to 0. *)
Definition reset (m : AverageMeter) : AverageMeter :=
  {| name := name m; fmt := fmt m; val := 0; avg := 0; sum := 0; count := 0 |}.

(** [__init__(name, fmt)] *)
Definition AverageMeter_init (nm f : string) : AverageMeter :=
  reset {| name := nm; fmt := f; val := 0; avg := 0; sum := 0; count := 0 |}.

(** [update(val, n)]: the division [self.sum / self.count] raises
    [ZeroDivisionError] when the new count is 0. *)
Definition update (m : AverageMeter) (v : Q) (n : Z) : result AverageMeter :=
  let sum' := (sum m + v * inject_Z n)%Q in
  let count' := count m + n in
  if count' =? 0 then Err ZeroDivisionError
  else Ok {| name := name m; fmt := fmt m; val := v;
             avg := (sum' / inject_Z count')%Q; sum := sum'; count := count' |}.

(** A sequence of [update] calls, stopping at the first exception. *)
Fixpoint update_all (m : AverageMeter) (calls : list (Q * Z)) : result AverageMeter :=
  match calls with
  | [] => Ok m
  | (v, n) :: rest =>
      match update m v n with
      | Ok m' => update_all m' rest
      | Err e => Err e
      end
  end.

(** ** Decimal rendering: [str(n)] and ['{:wd}'.format(n)] for integers *)

Definition digit_char (d : Z) : string :=
  String (Ascii.ascii_of_nat (48 + Z.to_nat d)%nat) "".

Fixpoint str_digits (fuel : nat) (n : Z) : string :=
  match fuel with
  | O => ""
  | S fuel' =>
      if n <? 10 then digit_char n
      else str_digits fuel' (n / 10) +:+ digit_char (n mod 10)
  end.

(** [str(n)] for a Python int. *)
Definition str (n : Z) : string :=
  if n <? 0 then "-" +:+ str_digits (S (Z.to_nat (- n))) (- n)
  else str_digits (S (Z.to_nat n)) n.

Fixpoint spaces (k : nat) : string :=
  match k with O => "" | S k' => " " +:+ spaces k' end.

(** ['{:wd}'.format(n)]: right aligned in a field of at least [w]
    characters, never truncated. *)
Definition format_d (w : nat) (n : Z) : string :=
  let s := str n in spaces (w - String.length s)%nat +:+ s.

(** ** ProgressMeter *)

(** A format string such as ['[{:3d}/100]'], kept as its pieces: the text
    before the field, the width of the one ['{:wd}'] field, the text after. *)
Record BatchFmt : Type := mkBatchFmt {
  before_field : string;
  field_width : nat;
  after_field : string
}.

Definition BatchFmt_format (f : BatchFmt) (n : Z) : string :=
  before_field f +:+ format_d (field_width f) n +:+ after_field f.

(** [_get_batch_fmtstr(num_batches)] *)
Definition _get_batch_fmtstr (num_batches : Z) : BatchFmt :=
  let num_digits := String.length (str (num_batches / 1)) in
  let fmt := mkBatchFmt "" num_digits "" in
  {| before_field := "[";
     field_width := num_digits;
     after_field := "/" +:+ BatchFmt_format fmt num_batches +:+ "]" |}.

Record ProgressMeter : Type := mkProgress {
  batch_fmtstr : BatchFmt;
  prefix : string
}.

(** [__init__(num_batches, meters, prefix)].  [self.meters] is a list of
    references to the caller's meter objects; [display] below therefore
    takes the meters as they are at the time of the call. *)
Definition ProgressMeter_init (num_batches : Z) (pre : string) : ProgressMeter :=
  {| batch_fmtstr := _get_batch_fmtstr num_batches; prefix := pre |}.

Fixpoint join (sep : string) (l : list string) : string :=
  match l with
  | [] => ""
  | [s] => s
  | s :: rest => s +:+ sep +:+ join sep rest
  end.

Definition tab : string := String (Ascii.ascii_of_nat 9) "".

Section Harness.

(** The collaborators of the harness. *)
Variable meter_str : AverageMeter -> string.       (* AverageMeter.__str__ *)
Variable clock : nat -> Q.                         (* the k-th reading of time.time() *)
Variable forward : nat -> gmap string Tensor -> result Z.  (* the k-th call model(inputs) *)
Variable loss_fn : nat -> Z -> Tensor -> result Q.         (* the k-th call loss(output, target) *)

(** [display(batch)] with the current state of the referenced meters. *)
Definition display_line (p : ProgressMeter) (batch : nat) (meters : list AverageMeter) : string :=
  let entries := [prefix p +:+ BatchFmt_format (batch_fmtstr p) (Z.of_nat batch)] in
  let entries := entries ++ map meter_str meters in
  join tab entries.

Definition display (p : ProgressMeter) (batch : nat) (meters : list AverageMeter) : M unit :=
  emit (EvReport batch (display_line p batch meters)).

(** *** [_time] and its two primitives *)

(** [torch.cuda.synchronize()]: returns once all work issued to the
    accelerator so far has completed. *)
Definition cuda_synchronize : M unit :=
  fun w => mkOutcome [EvSync (pending w)] (set_pending 0 w) (Ok tt).

(** [time.time()] *)
Definition time_time : M Q :=
  fun w => mkOutcome [EvClock (ticks w) (pending w)]
                     (set_ticks (S (ticks w)) w) (Ok (clock (ticks w))).

Definition _time (use_cuda : bool) : M Q :=
  ((if use_cuda then cuda_synchronize else ret tt) ;;;
   time_time)%py.

(** *** The model and the loss.  On an accelerator a call only issues
    the work; it completes later. *)

Definition issue_if (on_accelerator : bool) (w : World) : World :=
  if on_accelerator then set_pending (S (pending w)) w else w.

Definition is_cuda (l : Layout) : bool :=
  match l with Cuda => true | _ => false end.

(** [model(inputs)] in iteration [i] *)
Definition call_model (i : nat) (inputs : gmap string Tensor) : M Z :=
  fun w => mkOutcome [EvForward i (training w) (grad_enabled w) inputs]
                     (issue_if (is_cuda (model_layout w)) w)
                     (forward i inputs).

(** [loss(output, target)] in iteration [i] *)
Definition call_loss (i : nat) (output : Z) (tgt : Tensor) : M Q :=
  fun w => mkOutcome [EvLoss i (grad_enabled w) tgt]
                     (issue_if (is_cuda (layout tgt)) w)
                     (loss_fn i output tgt).

(** *** Lines 181-189: moving the batch to the backend *)

(** [d[k]] on a dict *)
Definition getitem (d : gmap string Tensor) (k : string) : result Tensor :=
  match d !! k with
  | Some t => Ok t
  | None => Err (KeyError k)
  end.

Definition convert (args : Args) (sample : Sample)
  : result (gmap string Tensor * Tensor) :=
  let inputs := input sample in
  let tgt := target sample in
  if cuda args then
    match getitem inputs "video" with
    | Err e => Err e
    | Ok v =>
        let inputs := <["video" := tensor_cuda v]> inputs in
        match getitem inputs "audio" with
        | Err e => Err e
        | Ok a =>
            let inputs := <["audio" := tensor_cuda a]> inputs in
            Ok (inputs, tensor_cuda tgt)
        end
    end
  else if mkldnn args then
    match getitem inputs "video" with
    | Err e => Err e
    | Ok v =>
        let inputs := <["video" := tensor_to_mkldnn v]> inputs in
        match getitem inputs "audio" with
        | Err e => Err e
        | Ok a =>
            let inputs := <["audio" := tensor_to_mkldnn a]> inputs in
            Ok (inputs, tgt)
        end
    end
  else Ok (inputs, tgt).

(** *** The loop of [validata] *)

(** The locals that live across iterations: [end] and the three meters. *)
Record LoopState : Type := mkLoopState {
  end_ : Q;
  batch_time : AverageMeter;
  data_time : AverageMeter;
  losses : AverageMeter
}.

(** Lines 179-199: one iteration up to [end = _time(args.cuda)]. *)
Definition process_batch (args : Args) (i : nat) (sample : Sample)
           (st : LoopState) : M LoopState :=
  (t <- _time (cuda args) ;;
   data_time' <- lift (update (data_time st) (t - end_ st)%Q 1) ;;
   conv <- lift (convert args sample) ;;
   output <- call_model i (fst conv) ;;
   loss_data <- call_loss i output (snd conv) ;;
   t' <- _time (cuda args) ;;
   batch_time' <- lift (update (batch_time st) (t' - end_ st)%Q 1) ;;
   e <- _time (cuda args) ;;
   ret {| end_ := e; batch_time := batch_time';
          data_time := data_time'; losses := losses st |})%py.

(** Lines 201-202: [if i % args.print_freq == 0: progress.display(i)]. *)
Definition maybe_report (args : Args) (progress : ProgressMeter) (i : nat)
           (st : LoopState) : M unit :=
  if print_freq args =? 0 then raise ZeroDivisionError
  else if Z.of_nat i mod print_freq args =? 0
       then display progress i [batch_time st; data_time st; losses st]
       else ret tt.

(** [for i, sample in enumerate(iterator)], from index [i] on. *)
Fixpoint validata_loop (args : Args) (progress : ProgressMeter) (i : nat)
         (samples : list Sample) (st : LoopState) : M LoopState :=
  match samples with
  | [] => ret st
  | sample :: rest =>
      (emit (EvFetch i) ;;;
       st' <- process_batch args i sample st ;;
       maybe_report args progress i st' ;;;
       validata_loop args progress (S i) rest st')%py
  end.

(** [with torch.no_grad():] saves the gradient mode, switches it off, and
    puts the saved mode back when the block is left, normally or by an
    exception. *)
Definition with_no_grad {A} (body : M A) : M A :=
  fun w =>
    let prev := grad_enabled w in
    let o := body (set_grad_enabled false w) in
    mkOutcome (events o) (set_grad_enabled prev (final o)) (value o).

Definition nl : string := String (Ascii.ascii_of_nat 10) "".

(** [validata]: the test iterator is the list of its items.  The Python
    function returns [None]; the model returns the loop's locals so that
    the meters can be inspected. *)
Definition validata (samples : list Sample) (args : Args) : M LoopState :=
  (print ("Running evaluation step." +:+ nl) ;;;
   let batch_time := AverageMeter_init "Time" ":6.3f" in
   let data_time := AverageMeter_init "Data" ":6.3f" in
   let losses := AverageMeter_init "Loss" ":.4e" in
   let progress := ProgressMeter_init (Z.of_nat (length samples)) "Test: " in
   (if cuda args
    then (modify (set_training false) ;;; modify (set_model_layout Cuda))
    else ret tt) ;;;
   with_no_grad
     (e <- _time (cuda args) ;;
      validata_loop args progress 0 samples
        {| end_ := e; batch_time := batch_time;
           data_time := data_time; losses := losses |}))%py.

(** *** [main] *)

Variable args_repr : Args -> string.               (* repr of the namespace *)

(** Names bound at module level when [main] runs. *)
Definition module_globals : list string :=
  ["build_dataset"; "build_model"; "build_meters"; "AccuracyMeter";
   "VideoAccuracyMeter"; "ClassificationTask"; "build_optimizer";
   "build_loss"; "LocalTrainer"; "CheckpointHook"; "ProgressBarHook";
   "LossLrMeterLoggingHook"; "TimeMetricsHook"; "torch"; "mkldnn_utils";
   "model_config"; "MkldnnFullyConvolutionalLinear"; "argparse"; "shutil";
   "time"; "os"; "parser"; "main"; "train"; "validata"; "_time";
   "AverageMeter"; "ProgressMeter"].

(** Names assigned in [main] before lines 105 and 107 are reached. *)
Definition main_locals : list string :=
  ["args"; "video_dir"; "splits_dir"; "metadata_file"; "resnext3d_configs";
   "datasets"; "dataset_train_configs"; "dataset_test_configs"; "model";
   "meters"; "loss"; "optimizer"; "heads_configs"; "in_plane";
   "num_classes"; "act_func"; "mkldnn_head_fcl"].

(** Reading a variable inside [main] at lines 105/107: a local of [main],
    else a module global, else [NameError] (the name read there is not a
    Python builtin). *)
Definition load_name (x : string) : M unit :=
  if bool_decide (x ∈ main_locals ++ module_globals) then ret tt
  else raise (NameError x).

Definition backend_assert_msg : string :=
  "We can not runing this work on GPU backend and MKLDNN backend "
  +:+ spaces 16 +:+ "please set one backend." +:+ nl.

(** Lines 61-66: the banner; the value returned names the branch taken. *)
Definition backend_banner (args : Args) : M Backend :=
  if cuda args then
    (print ("Using GPU backend to do this work." +:+ nl) ;;; ret Accelerator)%py
  else if mkldnn args then
    (print ("Using MKLDNN backend to do this work." +:+ nl) ;;; ret OptimizedCPU)%py
  else
    (print ("Using native CPU backend to do this work." +:+ nl) ;;; ret PlainCPU)%py.

(** Lines 55-66: [args.cuda], the assertion and the banner.  The program is
    taken to run with assertions enabled (no [-O]). *)
Definition select_backend (args : Args) (cuda_is_available : bool)
  : M (Args * Backend) :=
  let args := set_cuda args (negb (no_cuda args) && cuda_is_available) in
  ((if cuda args && mkldnn args
    then raise (AssertionError backend_assert_msg)
    else ret tt) ;;;
   b <- backend_banner args ;;
   ret (args, b))%py.

(** *** [train] *)

(** The hooks that [train] can put on the task. *)
Inductive Hook : Type :=
| LossLrMeterLoggingHook (log_freq : Z)
| ProgressBarHook
| TensorboardPlotHook
| CheckpointHook (stamp : Q).

(** Reading a name that [train] does not assign: a module global, else
    [NameError] (the name read is not a Python builtin). *)
Definition load_global (x : string) : M unit :=
  if bool_decide (x ∈ module_globals) then ret tt
  else raise (NameError x).

(** The body of [train], lines 117-143.  The result is the list of hooks
    of the task at the call [trainer.train(task)]; building the task, the
    [SummaryWriter], [os.mkdir] and the trainer are calls into libraries
    and are taken to succeed.  [tensorboardX_installed] tells whether
    [from tensorboardX import SummaryWriter] succeeds; when it does not,
    the ImportError is caught by the [except] clause of line 134.  The
    clock is read once, for the name of the checkpoint directory.
    [skip_tensorboard] is the flag [--skip-tensorboard] of the namespace. *)
Definition train_steps (args : Args)
           (skip_tensorboard tensorboardX_installed : bool) : M (list Hook) :=
  (let hooks := [LossLrMeterLoggingHook (print_freq args)] in
   let hooks := hooks ++ [ProgressBarHook] in
   hooks <- (if negb skip_tensorboard then
               if tensorboardX_installed then
                 (load_global "TensorboardPlotHook" ;;;
                  ret (hooks ++ [TensorboardPlotHook]))
               else
                 (print "tensorboardX not installed, skipping tensorboard hooks" ;;;
                  ret hooks)
             else ret hooks) ;;
   stamp <- time_time ;;
   let hooks := hooks ++ [CheckpointHook stamp] in
   ret hooks)%py.

(** [train]: the function is entered and its body runs up to the call
    [trainer.train(task)]; what the trainer then does is a library's
    business and not part of the harness. *)
Definition train (args : Args)
           (skip_tensorboard tensorboardX_installed : bool) : M unit :=
  (emit EvTrain ;;;
   train_steps args skip_tensorboard tensorboardX_installed ;;;
   ret tt)%py.

(** [main].  Lines 68-92 (configuration, datasets, model, meters, loss and
    optimizer construction) are calls into classy_vision and are taken to
    succeed without an action of their own; [test_set] is what
    [datasets["test"]] will yield.  [skip_tensorboard] is the flag
    [--skip-tensorboard]; [tensorboardX_installed] tells whether the
    import of line 131 would succeed. *)
Definition main (args : Args) (cuda_is_available : bool)
           (skip_tensorboard tensorboardX_installed : bool)
           (test_set : list Sample) : M unit :=
  (print (args_repr args) ;;;
   sel <- select_backend args cuda_is_available ;;
   let args := fst sel in
   (if mkldnn args then
      if evaluate args then
        (modify (set_training false) ;;;
         modify (set_model_layout Mkldnn) ;;;
         load_name "mkldnn_head_fcl" ;;;
         modify (set_head_replaced true))
      else
        (load_name "mkldnn_head_fc" ;;;
         modify (set_head_replaced true))
    else ret tt) ;;;
   if evaluate args then
     (validata test_set args ;;; ret tt)
   else train args skip_tensorboard tensorboardX_installed)%py.

End Harness.

(** * Concrete collaborators used to run the model on examples *)

Module Demo.

Definition meter_str (m : AverageMeter) : string :=
  name m +:+ " #" +:+ str (count m).

(** A clock that advances one second per reading. *)
Definition clock (k : nat) : Q := inject_Z (Z.of_nat k).

Definition forward_ok (i : nat) (inputs : gmap string Tensor) : result Z :=
  Ok (Z.of_nat i).

(** A model whose call in iteration 1 raises. *)
Definition forward_fail_at_1 (i : nat) (inputs : gmap string Tensor) : result Z :=
  if Nat.eqb i 1 then Err (ModelError "forward") else Ok (Z.of_nat i).

Definition loss_ok (i : nat) (output : Z) (tgt : Tensor) : result Q :=
  Ok (inject_Z output).

Definition args_repr (a : Args) : string := "Namespace".

Definition batch (k : Z) : Sample :=
  {| input := <["video" := mkTensor k Dense]>
              (<["audio" := mkTensor (k + 100) Dense]> ∅);
     target := mkTensor (k + 200) Dense |}.

Definition world0 : World :=
  {| training := true; model_layout := Dense; grad_enabled := true;
     pending := 0; ticks := 0; head_replaced := false |}.

Definition args_of (no_cuda_flag mkldnn_flag evaluate_flag : bool) (freq : Z) : Args :=
  {| no_cuda := no_cuda_flag; mkldnn := mkldnn_flag;
     evaluate := evaluate_flag; print_freq := freq; cuda := false |}.

End Demo.

(** * Vocabulary of the statements *)

(** The backend that the banner announces, as a function of the flags. *)
Definition active_backend (args : Args) : Backend :=
  if cuda args then Accelerator
  else if mkldnn args then OptimizedCPU
  else PlainCPU.

(** With both backends requested, selection fails whatever the
    availability. *)
Definition fails_for_every_availability (args : Args) (w : World) : Prop :=
  forall avail : bool, exists msg,
    value (select_backend args avail w) = Err (AssertionError msg).

Definition demo_calls : list (Q * Z) := [((3 # 2)%Q, 2); (1%Q, 4)].

(** [d] is the number of decimal digits of [n >= 0], counting 1 for 0. *)
Definition is_digit_count (n : Z) (d : nat) : Prop :=
  (1 <= d)%nat
  /\ n < 10 ^ Z.of_nat d
  /\ ((1 < d)%nat -> 10 ^ (Z.of_nat d - 1) <= n).

(** ** Reasoning about runs *)

(** [hoare I P m]: started in a world satisfying [I], the computation [m]
    logs events satisfying [P] and leaves a world satisfying [I], whether
    it ends normally or by an exception. *)
Definition hoare (I : World -> Prop) (P : list Event -> Prop) {A} (m : M A) : Prop :=
  forall w, I w -> P (events (m w)) /\ I (final (m w)).

(** Every clock reading comes right after a barrier and sees no
    outstanding accelerator work.  [fresh] tells whether the previous event
    was a barrier. *)
Fixpoint synced_reads (fresh : bool) (evs : list Event) : bool :=
  match evs with
  | [] => true
  | EvSync _ :: rest => synced_reads true rest
  | EvClock _ outstanding :: rest =>
      fresh && Nat.eqb outstanding 0 && synced_reads false rest
  | _ :: rest => synced_reads false rest
  end.

Definition barriered (evs : list Event) : Prop := synced_reads false evs = true.

Definition not_sync (ev : Event) : Prop :=
  match ev with EvSync _ => False | _ => True end.

(** The gradient mode seen by the model and loss calls. *)
Definition grad_is (g0 : bool) (ev : Event) : Prop :=
  match ev with
  | EvForward _ _ g _ => g = g0
  | EvLoss _ g _ => g = g0
  | _ => True
  end.

(** The training flag of the model at its calls. *)
Definition training_is (t0 : bool) (ev : Event) : Prop :=
  match ev with
  | EvForward _ tr _ _ => tr = t0
  | _ => True
  end.

(** The model is in inference mode (evaluation mode, no gradient tracking)
    at every call of an evaluation run, and both modes are back at their
    previous setting when the run is over. *)
Definition inference_mode_scoped
  (meter_str : AverageMeter -> string) (clock : nat -> Q)
  (forward : nat -> gmap string Tensor -> result Z)
  (loss_fn : nat -> Z -> Tensor -> result Q) (args_repr : Args -> string)
  (args : Args) (avail skip installed : bool) (test_set : list Sample)
  (w : World) : Prop :=
  let o := main meter_str clock forward loss_fn args_repr args avail skip installed test_set w in
  Forall (training_is false) (events o)
  /\ Forall (grad_is false) (events o)
  /\ training (final o) = training w
  /\ grad_enabled (final o) = grad_enabled w.

(** ** Reading a log *)

(** The loop index an event belongs to, if any. *)
Definition ev_batch (ev : Event) : option nat :=
  match ev with
  | EvReport j _ => Some j
  | EvFetch j => Some j
  | EvForward j _ _ _ => Some j
  | EvLoss j _ _ => Some j
  | _ => None
  end.

(** The batch indices of the progress lines, in the order printed. *)
Definition report_batches (evs : list Event) : list nat :=
  omap (fun ev => match ev with EvReport j _ => Some j | _ => None end) evs.

(** The batch indices of the model calls, in the order made. *)
Definition forward_batches (evs : list Event) : list nat :=
  omap (fun ev => match ev with EvForward j _ _ _ => Some j | _ => None end) evs.

(** [i % args.print_freq == 0] *)
Definition report_due (args : Args) (j : nat) : bool :=
  Z.of_nat j mod print_freq args =? 0.

(** The model call or the loss call of iteration [idx] raises on [sample]. *)
Definition compute_raises
  (forward : nat -> gmap string Tensor -> result Z)
  (loss_fn : nat -> Z -> Tensor -> result Q)
  (args : Args) (idx : nat) (sample : Sample) : bool :=
  match convert args sample with
  | Err _ => false
  | Ok conv =>
      match forward idx (fst conv) with
      | Err _ => true
      | Ok out => negb (is_ok (loss_fn idx out (snd conv)))
      end
  end.

Definition demo_five : list Sample :=
  [Demo.batch 0; Demo.batch 1; Demo.batch 2; Demo.batch 3; Demo.batch 4].

Definition demo_three : list Sample :=
  [Demo.batch 0; Demo.batch 1; Demo.batch 2].

Definition demo_state : LoopState :=
  {| end_ := 0%Q;
     batch_time := AverageMeter_init "Time" ":6.3f";
     data_time := AverageMeter_init "Data" ":6.3f";
     losses := AverageMeter_init "Loss" ":.4e" |}.

Definition demo_cuda_args : Args := set_cuda (Demo.args_of false false true 1) true.

Definition demo_cuda_args_10 : Args := set_cuda (Demo.args_of false false true 10) true.

(** The conversion, the model call and the loss call of iteration [idx]
    all succeed on [sample]. *)
Definition batch_computes
  (forward : nat -> gmap string Tensor -> result Z)
  (loss_fn : nat -> Z -> Tensor -> result Q)
  (args : Args) (idx : nat) (sample : Sample) : bool :=
  match convert args sample with
  | Err _ => false
  | Ok conv =>
      match forward idx (fst conv) with
      | Err _ => false
      | Ok out => is_ok (loss_fn idx out (snd conv))
      end
  end.

(** A clock that never runs backwards. *)
Definition monotone (clock : nat -> Q) : Prop :=
  forall k : nat, (clock k <= clock (S k))%Q.

(** A model whose calls all raise. *)
Definition forward_never (i : nat) (inputs : gmap string Tensor) : result Z :=
  Err (ModelError "forward").

(** A batch without its [video] entry. *)
Definition batch_without_video : Sample :=
  {| input := <["audio" := mkTensor 100 Dense]> ∅;
     target := mkTensor 200 Dense |}.

(** A batch without its [audio] entry. *)
Definition batch_without_audio : Sample :=
  {| input := <["video" := mkTensor 0 Dense]> ∅;
     target := mkTensor 200 Dense |}.

(** What the loop keeps true of the two time meters. *)
Definition times_ordered (st : LoopState) : Prop :=
  (0 <= sum (data_time st))%Q
  /\ (sum (data_time st) <= sum (batch_time st))%Q
  /\ (0 <= val (data_time st))%Q
  /\ (val (data_time st) <= val (batch_time st))%Q.

(** A progress line as [validata] prints it: built by [display] from the
    progress meter [p], the batch index, a [Time] and a [Data] meter that
    have seen that many batches plus one, and the [Loss] meter as it was
    built. *)
Definition report_line_ok (meter_str : AverageMeter -> string)
           (p : ProgressMeter) (ev : Event) : Prop :=
  match ev with
  | EvReport j line =>
      exists bt dt : AverageMeter,
        line = display_line meter_str p j [bt; dt; AverageMeter_init "Loss" ":.4e"]
        /\ count bt = Z.of_nat j + 1 /\ count dt = Z.of_nat j + 1
        /\ name bt = "Time" /\ name dt = "Data"
  | _ => True
  end.

(** ** AverageMeter over binary64 floats

    The four statements of [update] as Python runs them when the value is
    a float: [val * n] and [self.sum / self.count] first convert the int
    operand to a float, which raises OverflowError when the int is too
    large, and then compute in IEEE 754 binary64 with rounding to nearest
    even.  The ints [0] that [reset] stores are kept as the float [0.0],
    which behaves the same under [+=].  An update that raises leaves the
    Python object partly assigned; here it yields the exception only. *)

Module F64.
Import PrimFloat.

(** The float nearest to an int (ties to even). *)
Definition float_of_int (n : Z) : float :=
  FloatOps.SF2Prim
    (SpecFloat.binary_normalize FloatOps.prec FloatOps.emax n 0 false).

(** The least positive int that no longer converts: it rounds to 2^1024. *)
Definition max_int_for_float : Z := 2 ^ 1024 - 2 ^ 970.

(** The conversion of an int operand of a float operation. *)
Definition int_to_float (n : Z) : result float :=
  if Z.abs n <? max_int_for_float then Ok (float_of_int n)
  else Err OverflowError.

Record AverageMeter : Type := mkMeter {
  name : string;
  fmt : string;
  val : float;
  avg : float;
  sum : float;
  count : Z
}.

Definition reset (m : AverageMeter) : AverageMeter :=
  {| name := name m; fmt := fmt m; val := 0; avg := 0; sum := 0; count := 0 |}.

Definition AverageMeter_init (nm f : string) : AverageMeter :=
  reset {| name := nm; fmt := f; val := 0; avg := 0; sum := 0; count := 0 |}.

(** [update(val, n)] *)
Definition update (m : AverageMeter) (v : float) (n : Z) : result AverageMeter :=
  match int_to_float n with
  | Err e => Err e
  | Ok fn =>
      let sum' := (sum m + v * fn)%float in
      let count' := (count m + n)%Z in
      match int_to_float count' with
      | Err e => Err e
      | Ok fc =>
          if (count' =? 0)%Z then Err ZeroDivisionError
          else Ok {| name := name m; fmt := fmt m; val := v;
                     avg := (sum' / fc)%float; sum := sum'; count := count' |}
      end
  end.

(** A sequence of [update] calls, stopping at the first exception. *)
Fixpoint update_all (m : AverageMeter) (calls : list (float * Z))
  : result AverageMeter :=
  match calls with
  | [] => Ok m
  | (v, n) :: rest =>
      match update m v n with
      | Ok m' => update_all m' rest
      | Err e => Err e
      end
  end.

(** The rational number that a finite float stands for (0 for the
    infinities and NaN, which the statements below do not meet). *)
Definition exact (x : float) : Q :=
  match FloatOps.Prim2SF x with
  | SpecFloat.S754_finite s m e =>
      let q := (inject_Z (Zpos m) * Qpower 2 e)%Q in
      if s then Qopp q else q
  | _ => 0%Q
  end.








Definition demo_calls : list (float * Z) := [(1.5%float, 2%Z); (1%float, 4%Z)].

End F64.

(** ** The timing skeleton of a log *)

(** What is kept of an event when only the order of barriers, clock
    readings, fetches and calls matters. *)
Inductive Mark : Type :=
| MSync
| MClock
| MFetch (batch : nat)
| MForward (batch : nat)
| MLoss (batch : nat).

Definition mark_of (ev : Event) : option Mark :=
  match ev with
  | EvSync _ => Some MSync
  | EvClock _ _ => Some MClock
  | EvFetch i => Some (MFetch i)
  | EvForward i _ _ _ => Some (MForward i)
  | EvLoss i _ _ => Some (MLoss i)
  | _ => None
  end.

Definition marks (evs : list Event) : list Mark := omap mark_of evs.

(** One call of [TimeSource.now(wait)]: the barrier, if asked for, and
    then the clock. *)
Definition time_marks (wait : bool) : list Mark :=
  if wait then [MSync; MClock] else [MClock].

(** One batch: the fetch, the time at which the input is there, the model
    and the loss, the time at which the batch is done, and the time from
    which the next batch is counted. *)
Definition batch_marks (wait : bool) (i : nat) : list Mark :=
  MFetch i :: time_marks wait ++ [MForward i; MLoss i]
           ++ time_marks wait ++ time_marks wait.

(** A whole run over [n] batches: the time before the first batch, then
    the batches in order. *)
Definition run_marks (wait : bool) (n : nat) : list Mark :=
  time_marks wait ++ flat_map (batch_marks wait) (seq 0 n).

Definition is_accelerator (b : Backend) : bool :=
  match b with Accelerator => true | _ => false end.

(** * Backend selection *)

Lemma backend_banner_value (args : Args) (w : World) :
  value (backend_banner args w) = Ok (active_backend args).
Proof.
  unfold backend_banner, active_backend.
  destruct (cuda args); [reflexivity|].
  destruct (mkldnn args); reflexivity.
Qed.

Lemma select_backend_value (args : Args) (avail : bool) (w : World) :
  value (select_backend args avail w) =
  let args' := set_cuda args (negb (no_cuda args) && avail) in
  if cuda args' && mkldnn args'
  then Err (AssertionError backend_assert_msg)
  else Ok (args', active_backend args').
Proof.
  unfold select_backend, bind. cbn zeta.
  destruct (cuda _ && mkldnn _) eqn:E; cbn; [reflexivity|].
  rewrite backend_banner_value. reflexivity.
Qed.

(** C1, counterexample: both backends requested on a host without an
    accelerator.  Selection does not fail; it settles on the optimized CPU
    backend. *)
Lemma both_requested_unavailable_is_accepted :
  value (select_backend (Demo.args_of false true true 10) false Demo.world0)
  = Ok (Demo.args_of false true true 10, OptimizedCPU)
  /\ ~ fails_for_every_availability (Demo.args_of false true true 10) Demo.world0.
Proof.
  split; [reflexivity|].
  intros H. destruct (H false) as [msg Hmsg]. discriminate Hmsg.
Qed.

(** C1, amended: with the accelerator requested ([--no-cuda] absent) and
    [--mkldnn] given, selection raises the assertion exactly when the
    accelerator is available, and then [main] stops having done nothing but
    print the arguments; when the accelerator is unavailable there is no
    error and the optimized CPU backend is chosen. *)
Theorem both_requested_fails_iff_available
  (meter_str : AverageMeter -> string) (clock : nat -> Q)
  (forward : nat -> gmap string Tensor -> result Z)
  (loss_fn : nat -> Z -> Tensor -> result Q) (args_repr : Args -> string)
  (ev : bool) (pf : Z) (c avail skip installed : bool) (test_set : list Sample)
  (w : World) :
  let args := mkArgs false true ev pf c in
  value (select_backend args avail w) =
    (if avail then Err (AssertionError backend_assert_msg)
     else Ok (set_cuda args false, OptimizedCPU))
  /\ (let o := main meter_str clock forward loss_fn args_repr args true skip installed test_set w in
      value o = Err (AssertionError backend_assert_msg)
      /\ events o = [EvPrint (args_repr args)]
      /\ final o = w).
Proof.
  cbn zeta. split.
  - rewrite select_backend_value. destruct avail; reflexivity.
  - repeat split.
Qed.

(** C4: accelerator requested, optimized CPU backend not requested, no
    accelerator on the host: selection succeeds and yields the plain CPU
    backend; the only thing it does is print the plain CPU banner. *)
Theorem fallback_to_plain_cpu (ev : bool) (pf : Z) (c : bool) (w : World) :
  let args := mkArgs false false ev pf c in
  let o := select_backend args false w in
  value o = Ok (set_cuda args false, PlainCPU)
  /\ events o = [EvPrint ("Using native CPU backend to do this work." +:+ nl)]
  /\ final o = w.
Proof.
  cbn zeta. repeat split.
Qed.

(** * The head assignment on the MKLDNN training path *)

Lemma load_name_mkldnn_head_fc (w : World) :
  load_name "mkldnn_head_fc" w = mkOutcome [] w (Err (NameError "mkldnn_head_fc")).
Proof. vm_compute. reflexivity. Qed.

Lemma load_name_mkldnn_head_fcl (w : World) :
  load_name "mkldnn_head_fcl" w = mkOutcome [] w (Ok tt).
Proof. vm_compute. reflexivity. Qed.

(** C10: once selection has settled on the optimized CPU backend and
    [--evaluate] is absent, [main] ends in [NameError] for
    [mkldnn_head_fc]: the head is not replaced, [train] is never entered,
    and nothing was done beyond printing the arguments and the banner. *)
Theorem mkldnn_training_path_name_error
  (meter_str : AverageMeter -> string) (clock : nat -> Q)
  (forward : nat -> gmap string Tensor -> result Z)
  (loss_fn : nat -> Z -> Tensor -> result Q) (args_repr : Args -> string)
  (args args' : Args) (avail skip installed : bool) (test_set : list Sample)
  (w : World) :
  value (select_backend args avail w) = Ok (args', OptimizedCPU) ->
  evaluate args = false ->
  let o := main meter_str clock forward loss_fn args_repr args avail skip installed test_set w in
  value o = Err (NameError "mkldnn_head_fc")
  /\ ~ In EvTrain (events o)
  /\ head_replaced (final o) = head_replaced w
  /\ events o = [EvPrint (args_repr args);
                 EvPrint ("Using MKLDNN backend to do this work." +:+ nl)].
Proof.
  intros Hsel Hev. cbn zeta.
  rewrite select_backend_value in Hsel.
  destruct args as [nc mk ev pf c]. cbn in Hev. subst ev.
  destruct nc, avail, mk; cbn in Hsel; try discriminate Hsel;
    (repeat split; intros [H|[H|[]]]; discriminate H).
Qed.

Lemma mkldnn_training_path_name_error_witness :
  let args := Demo.args_of false true false 10 in
  let o := main Demo.meter_str Demo.clock Demo.forward_ok Demo.loss_ok
                Demo.args_repr args false false true [Demo.batch 0] Demo.world0 in
  value o = Err (NameError "mkldnn_head_fc")
  /\ ~ In EvTrain (events o)
  /\ head_replaced (final o) = head_replaced Demo.world0
  /\ events o = [EvPrint (Demo.args_repr args);
                 EvPrint ("Using MKLDNN backend to do this work." +:+ nl)].
Proof.
  apply (mkldnn_training_path_name_error Demo.meter_str Demo.clock
           Demo.forward_ok Demo.loss_ok Demo.args_repr
           (Demo.args_of false true false 10) (Demo.args_of false true false 10)
           false false true [Demo.batch 0] Demo.world0); reflexivity.
Defined.

(** * AverageMeter over exact rationals *)

Lemma update_positive (m : AverageMeter) (v : Q) (n : Z) :
  0 <= count m -> 0 < n ->
  update m v n =
  Ok {| name := name m; fmt := fmt m; val := v;
        avg := ((sum m + v * inject_Z n) / inject_Z (count m + n))%Q;
        sum := (sum m + v * inject_Z n)%Q; count := count m + n |}.
Proof.
  intros Hc Hn. unfold update.
  destruct (count m + n =? 0) eqn:E; [|reflexivity].
  apply Z.eqb_eq in E. lia.
Qed.

(** * AverageMeter over binary64 floats *)

Lemma max_int_for_float_pos : 0 < F64.max_int_for_float.
Proof. reflexivity. Qed.

Lemma int_to_float_small (n : Z) :
  Z.abs n < F64.max_int_for_float ->
  F64.int_to_float n = Ok (F64.float_of_int n).
Proof.
  intros H. unfold F64.int_to_float.
  apply Z.ltb_lt in H. now rewrite H.
Qed.







(** The meter over exact rationals used by the loop and the meter over
    floats go through the same updates: below the conversion bound they
    raise on the same calls, and they count alike. *)
Lemma update_counts_agree (mq : AverageMeter) (mf : F64.AverageMeter)
      (q : Q) (v : PrimFloat.float) (n : Z) :
  F64.count mf = count mq ->
  Z.abs n < F64.max_int_for_float ->
  Z.abs (count mq + n) < F64.max_int_for_float ->
  match update mq q n, F64.update mf v n with
  | Ok mq', Ok mf' => F64.count mf' = count mq'
  | Err eq, Err ef => eq = ZeroDivisionError /\ ef = ZeroDivisionError
  | _, _ => False
  end.
Proof.
  intros Hc Hn Hcn. unfold update, F64.update.
  rewrite Hc, !int_to_float_small by assumption. cbn zeta.
  destruct (count mq + n =? 0); [split; reflexivity | reflexivity].
Qed.

(** * ProgressMeter: the width of the batch index field *)

Lemma string_length_app (a b : string) :
  String.length (a +:+ b) = (String.length a + String.length b)%nat.
Proof.
  induction a as [|c a IH]; [reflexivity|].
  change (S (String.length (a +:+ b)) = S (String.length a + String.length b)).
  now rewrite IH.
Qed.

Lemma spaces_length (k : nat) : String.length (spaces k) = k.
Proof.
  induction k as [|k IH]; [reflexivity|].
  change (S (String.length (spaces k)) = S k). now rewrite IH.
Qed.

Lemma str_digits_length (fuel : nat) :
  forall n : Z, 0 <= n < Z.of_nat fuel ->
    is_digit_count n (String.length (str_digits fuel n)).
Proof.
  induction fuel as [|fuel IH]; intros n Hn; [lia|].
  cbn [str_digits]. destruct (n <? 10) eqn:E.
  - apply Z.ltb_lt in E. cbn. unfold is_digit_count. cbn. lia.
  - apply Z.ltb_ge in E.
    assert (Hq : 0 <= n / 10 < Z.of_nat fuel).
    { split; [apply Z.div_pos; lia|].
      assert (n / 10 < n) by (apply Z.div_lt; lia). lia. }
    destruct (IH _ Hq) as (Hd & Hlt & Hge).
    rewrite string_length_app. cbn [digit_char String.length].
    set (d := String.length (str_digits fuel (n / 10))) in *.
    assert (Hpow : 10 ^ Z.of_nat (d + 1) = 10 * 10 ^ Z.of_nat d).
    { rewrite Nat2Z.inj_add, Z.pow_add_r by lia. cbn. lia. }
    unfold is_digit_count. repeat split.
    + lia.
    + rewrite Hpow.
      pose proof (Z.div_mod n 10 ltac:(lia)).
      pose proof (Z.mod_pos_bound n 10 ltac:(lia)). lia.
    + intros _.
      replace (Z.of_nat (d + 1) - 1) with (Z.of_nat d) by lia.
      pose proof (Z.div_mod n 10 ltac:(lia)).
      pose proof (Z.mod_pos_bound n 10 ltac:(lia)).
      destruct (Nat.eq_dec d 1%nat) as [Heq|Hne].
      * rewrite Heq in *. cbn in *. lia.
      * assert (Hd1 : (1 < d)%nat) by lia.
        specialize (Hge Hd1).
        replace (Z.of_nat d) with (Z.of_nat d - 1 + 1) by lia.
        rewrite Z.pow_add_r by lia. cbn. lia.
Qed.

Lemma str_length_digit_count (n : Z) :
  0 <= n -> is_digit_count n (String.length (str n)).
Proof.
  intros Hn. unfold str.
  destruct (n <? 0) eqn:E; [apply Z.ltb_lt in E; lia|].
  apply str_digits_length. lia.
Qed.

Lemma digit_count_mono (a b : Z) (da db : nat) :
  0 <= a <= b -> is_digit_count a da -> is_digit_count b db -> (da <= db)%nat.
Proof.
  intros Hab (Ha1 & Ha2 & Ha3) (Hb1 & Hb2 & Hb3).
  destruct (le_lt_dec da db) as [|Hlt]; [assumption|].
  assert (H1 : (1 < da)%nat) by lia.
  specialize (Ha3 H1).
  assert (10 ^ Z.of_nat db <= 10 ^ (Z.of_nat da - 1))
    by (apply Z.pow_le_mono_r; lia).
  lia.
Qed.

Lemma format_d_length (w : nat) (n : Z) :
  String.length (format_d w n) = Nat.max w (String.length (str n)).
Proof.
  unfold format_d. cbn zeta. rewrite string_length_app, spaces_length. lia.
Qed.

(** C8: the width of the batch index field is fixed when the
    [ProgressMeter] is built and equals the number of decimal digits of
    [num_batches] (1 for 0); every index from 0 to [num_batches] is then
    rendered in exactly that many characters.  With 100 batches the indices
    0, 9 and 99 each take three characters; with 0 batches the width is 1. *)
Theorem batch_index_field_width :
  (forall (total : Z) (pre : string),
      0 <= total ->
      let p := ProgressMeter_init total pre in
      let w := field_width (batch_fmtstr p) in
      is_digit_count total w
      /\ forall batch : Z, 0 <= batch <= total ->
           String.length (format_d w batch) = w)
  /\ field_width (batch_fmtstr (ProgressMeter_init 0 "Test: ")) = 1%nat
  /\ map (BatchFmt_format (batch_fmtstr (ProgressMeter_init 100 "Test: ")))
         [0; 9; 99]
     = ["[  0/100]"; "[  9/100]"; "[ 99/100]"].
Proof.
  split; [|split; reflexivity].
  intros total pre Htotal. cbn zeta.
  unfold ProgressMeter_init, _get_batch_fmtstr. cbn [batch_fmtstr field_width].
  rewrite Z.div_1_r.
  pose proof (str_length_digit_count total Htotal) as Hw.
  split; [exact Hw|].
  intros batch Hb. rewrite format_d_length.
  pose proof (str_length_digit_count batch ltac:(lia)) as Hbw.
  pose proof (digit_count_mono batch total _ _ Hb Hbw Hw). lia.
Qed.

Lemma batch_index_field_width_witness :
  0 <= 100
  /\ is_digit_count 100 (field_width (batch_fmtstr (ProgressMeter_init 100 "Test: ")))
  /\ String.length
       (format_d (field_width (batch_fmtstr (ProgressMeter_init 100 "Test: "))) 9)
     = field_width (batch_fmtstr (ProgressMeter_init 100 "Test: ")).
Proof.
  assert (H100 : 0 <= 100) by lia.
  split; [exact H100|].
  destruct (proj1 batch_index_field_width 100 "Test: " H100) as [Hw Hall].
  split; [exact Hw|].
  apply Hall. lia.
Defined.

(** * Proof rules for runs *)

Lemma time_value (clock : nat -> Q) (b : bool) (w : World) :
  value (_time clock b w) = Ok (clock (ticks w)).
Proof. destruct b; reflexivity. Qed.

Section Rules.

Variable I : World -> Prop.
Variable P : list Event -> Prop.
Hypothesis P_nil : P [].
Hypothesis P_app : forall l1 l2, P l1 -> P l2 -> P (l1 ++ l2).

Lemma hoare_ret {A} (a : A) : hoare I P (ret a).
Proof. intros w Hw. split; [exact P_nil | exact Hw]. Qed.

Lemma hoare_raise {A} (e : Exc) : hoare I P (@raise A e).
Proof. intros w Hw. split; [exact P_nil | exact Hw]. Qed.

Lemma hoare_lift {A} (r : result A) : hoare I P (lift r).
Proof. intros w Hw. split; [exact P_nil | exact Hw]. Qed.

Lemma hoare_emit (ev : Event) : P [ev] -> hoare I P (emit ev).
Proof. intros Hev w Hw. split; [exact Hev | exact Hw]. Qed.

Lemma hoare_bind {A B} (m : M A) (f : A -> M B) :
  hoare I P m -> (forall a, hoare I P (f a)) -> hoare I P (bind m f).
Proof.
  intros Hm Hf w Hw. unfold bind.
  destruct (Hm w Hw) as [Hev Hfin].
  destruct (value (m w)) as [a|e]; cbn.
  - destruct (Hf a _ Hfin) as [Hev' Hfin'].
    split; [apply P_app; assumption | assumption].
  - split; assumption.
Qed.

Section Loop.

Variable meter_str : AverageMeter -> string.
Variable clock : nat -> Q.
Variable forward : nat -> gmap string Tensor -> result Z.
Variable loss_fn : nat -> Z -> Tensor -> result Q.
Variable args : Args.

Hypothesis H_time : hoare I P (_time clock (cuda args)).
Hypothesis H_model : forall i inp, hoare I P (call_model forward i inp).
Hypothesis H_loss : forall i out t, hoare I P (call_loss loss_fn i out t).
Hypothesis H_fetch : forall i, P [EvFetch i].
Hypothesis H_report : forall i line, P [EvReport i line].

Lemma hoare_process_batch (i : nat) (sample : Sample) (st : LoopState) :
  hoare I P (process_batch clock forward loss_fn args i sample st).
Proof.
  unfold process_batch.
  repeat (first [ apply H_time | apply hoare_lift | apply H_model
                | apply H_loss | apply hoare_ret
                | apply hoare_bind; [|intros ?] ]).
Qed.

Lemma hoare_maybe_report (progress : ProgressMeter) (i : nat) (st : LoopState) :
  hoare I P (maybe_report meter_str args progress i st).
Proof.
  unfold maybe_report.
  destruct (print_freq args =? 0); [apply hoare_raise|].
  destruct (_ =? 0); [|apply hoare_ret].
  apply hoare_emit, H_report.
Qed.

Lemma hoare_validata_loop (progress : ProgressMeter) (samples : list Sample) :
  forall (i : nat) (st : LoopState),
    hoare I P (validata_loop meter_str clock forward loss_fn args progress i samples st).
Proof.
  induction samples as [|sample rest IH]; intros i st; cbn [validata_loop].
  - apply hoare_ret.
  - apply hoare_bind; [apply hoare_emit, H_fetch | intros _].
    apply hoare_bind; [apply hoare_process_batch | intros st'].
    apply hoare_bind; [apply hoare_maybe_report | intros _].
    apply IH.
Qed.

End Loop.

End Rules.

(** [validata] laid out: the banner, the optional move to the accelerator,
    and the loop inside the no-gradient block. *)
Lemma validata_unfold
  (meter_str : AverageMeter -> string) (clock : nat -> Q)
  (forward : nat -> gmap string Tensor -> result Z)
  (loss_fn : nat -> Z -> Tensor -> result Q)
  (samples : list Sample) (args : Args) (w : World) :
  let w1 := if cuda args then set_model_layout Cuda (set_training false w) else w in
  let w2 := set_grad_enabled false w1 in
  let ot := _time clock (cuda args) w2 in
  let st0 := {| end_ := clock (ticks w);
                batch_time := AverageMeter_init "Time" ":6.3f";
                data_time := AverageMeter_init "Data" ":6.3f";
                losses := AverageMeter_init "Loss" ":.4e" |} in
  let o := validata_loop meter_str clock forward loss_fn args
             (ProgressMeter_init (Z.of_nat (length samples)) "Test: ")
             0 samples st0 (final ot) in
  validata meter_str clock forward loss_fn samples args w =
  mkOutcome (EvPrint ("Running evaluation step." +:+ nl) :: events ot ++ events o)
            (set_grad_enabled (grad_enabled w) (final o))
            (value o).
Proof.
  cbn zeta. unfold validata, with_no_grad.
  destruct (cuda args); reflexivity.
Qed.

(** * [_time]: the barrier comes before the clock *)

Lemma synced_reads_weaken (evs : list Event) :
  synced_reads false evs = true -> forall b, synced_reads b evs = true.
Proof.
  intros H b. destruct evs as [|ev rest]; [reflexivity|].
  destruct ev; cbn in *; try assumption. discriminate H.
Qed.

Lemma synced_reads_app (l1 l2 : list Event) :
  forall b, synced_reads b l1 = true -> synced_reads false l2 = true ->
            synced_reads b (l1 ++ l2) = true.
Proof.
  induction l1 as [|ev rest IH]; intros b H1 H2.
  - cbn. now apply synced_reads_weaken.
  - destruct ev; cbn in *; try (now apply IH).
    apply andb_true_iff in H1 as [Hb Hrest].
    rewrite Hb. cbn. now apply IH.
Qed.

Lemma barriered_app (l1 l2 : list Event) :
  barriered l1 -> barriered l2 -> barriered (l1 ++ l2).
Proof. unfold barriered. apply synced_reads_app. Qed.

Lemma hoare_call_model_any (P : Event -> Prop)
      (forward : nat -> gmap string Tensor -> result Z) (i : nat)
      (inp : gmap string Tensor) :
  (forall tr g, P (EvForward i tr g inp)) ->
  hoare (fun _ => True) (Forall P) (call_model forward i inp).
Proof. intros H w _. split; [|exact Logic.I]. cbn. repeat constructor. apply H. Qed.

Lemma hoare_call_loss_any (P : Event -> Prop)
      (loss_fn : nat -> Z -> Tensor -> result Q) (i : nat) (out : Z) (t : Tensor) :
  (forall g, P (EvLoss i g t)) ->
  hoare (fun _ => True) (Forall P) (call_loss loss_fn i out t).
Proof. intros H w _. split; [|exact Logic.I]. cbn. repeat constructor. apply H. Qed.

Lemma validata_loop_barriered
  (meter_str : AverageMeter -> string) (clock : nat -> Q)
  (forward : nat -> gmap string Tensor -> result Z)
  (loss_fn : nat -> Z -> Tensor -> result Q)
  (args : Args) (progress : ProgressMeter) (samples : list Sample)
  (i : nat) (st : LoopState) (w : World) :
  cuda args = true ->
  barriered (events (validata_loop meter_str clock forward loss_fn args
                       progress i samples st w)).
Proof.
  intros Hc.
  refine (proj1 (hoare_validata_loop (fun _ => True) barriered _ barriered_app
                   meter_str clock forward loss_fn args _ _ _ _ _
                   progress samples i st w Logic.I)).
  - reflexivity.
  - rewrite Hc. intros w' _. split; [reflexivity | exact Logic.I].
  - intros j inp w' _. split; [reflexivity | exact Logic.I].
  - intros j out t w' _. split; [reflexivity | exact Logic.I].
  - reflexivity.
  - reflexivity.
Qed.

Lemma validata_loop_no_sync
  (meter_str : AverageMeter -> string) (clock : nat -> Q)
  (forward : nat -> gmap string Tensor -> result Z)
  (loss_fn : nat -> Z -> Tensor -> result Q)
  (args : Args) (progress : ProgressMeter) (samples : list Sample)
  (i : nat) (st : LoopState) (w : World) :
  cuda args = false ->
  Forall not_sync (events (validata_loop meter_str clock forward loss_fn args
                             progress i samples st w)).
Proof.
  intros Hc.
  refine (proj1 (hoare_validata_loop (fun _ => True) (Forall not_sync) _ _
                   meter_str clock forward loss_fn args _ _ _ _ _
                   progress samples i st w Logic.I)).
  - constructor.
  - intros l1 l2 H1 H2. apply Forall_app. split; assumption.
  - rewrite Hc. intros w' _. split; [|exact Logic.I].
    repeat constructor.
  - intros j inp. apply hoare_call_model_any. intros; exact Logic.I.
  - intros j out t. apply hoare_call_loss_any. intros; exact Logic.I.
  - intros j. repeat constructor.
  - intros j line. repeat constructor.
Qed.



(** * Inference mode during evaluation *)

Lemma validata_loop_modes
  (meter_str : AverageMeter -> string) (clock : nat -> Q)
  (forward : nat -> gmap string Tensor -> result Z)
  (loss_fn : nat -> Z -> Tensor -> result Q)
  (args : Args) (progress : ProgressMeter) (samples : list Sample)
  (i : nat) (st : LoopState) (w : World) :
  let o := validata_loop meter_str clock forward loss_fn args progress i samples st w in
  Forall (fun ev => grad_is (grad_enabled w) ev /\ training_is (training w) ev) (events o)
  /\ grad_enabled (final o) = grad_enabled w
  /\ training (final o) = training w.
Proof.
  cbn zeta.
  pose (I := fun w' => grad_enabled w' = grad_enabled w /\ training w' = training w).
  pose (Q := fun ev => grad_is (grad_enabled w) ev /\ training_is (training w) ev).
  assert (H : hoare I (Forall Q)
                (validata_loop meter_str clock forward loss_fn args progress i samples st)).
  { apply hoare_validata_loop.
    - constructor.
    - intros l1 l2 H1 H2. apply Forall_app. split; assumption.
    - intros w' [Hg Ht]. destruct (cuda args); cbn; (split; [|split; assumption]);
        repeat constructor.
    - intros j inp w' [Hg Ht]. split.
      + repeat constructor; cbn; assumption.
      + unfold call_model, issue_if. cbn. destruct (is_cuda _); split; assumption.
    - intros j out t w' [Hg Ht]. split.
      + repeat constructor; cbn; assumption.
      + unfold call_loss, issue_if. cbn. destruct (is_cuda _); split; assumption.
    - intros j. repeat constructor.
    - intros j line. repeat constructor. }
  destruct (H w) as [Hev [Hg Ht]]; [split; reflexivity|].
  repeat split; assumption.
Qed.

Lemma validata_modes
  (meter_str : AverageMeter -> string) (clock : nat -> Q)
  (forward : nat -> gmap string Tensor -> result Z)
  (loss_fn : nat -> Z -> Tensor -> result Q)
  (samples : list Sample) (args : Args) (w : World) :
  let o := validata meter_str clock forward loss_fn samples args w in
  let t := if cuda args then false else training w in
  Forall (fun ev => grad_is false ev /\ training_is t ev) (events o)
  /\ grad_enabled (final o) = grad_enabled w
  /\ training (final o) = t.
Proof.
  cbn zeta. rewrite validata_unfold. cbn [events final].
  match goal with
  | |- context [validata_loop ?a ?b ?c ?d ?e ?f ?g ?h ?i ?j] =>
      pose proof (validata_loop_modes a b c d e f h g i j) as Hloop
  end.
  cbn zeta in Hloop. destruct Hloop as (Hev & Hg & Ht).
  split; [|split].
  - constructor; [split; exact Logic.I|].
    apply Forall_app. split.
    + destruct (cuda args); repeat constructor.
    + eapply Forall_impl; [exact Hev|].
      intros ev. destruct (cuda args); cbn; trivial.
  - reflexivity.
  - cbn. rewrite Ht. destruct (cuda args); reflexivity.
Qed.

(** [main] with [--evaluate], once backend selection has passed. *)
Lemma main_evaluate
  (meter_str : AverageMeter -> string) (clock : nat -> Q)
  (forward : nat -> gmap string Tensor -> result Z)
  (loss_fn : nat -> Z -> Tensor -> result Q) (args_repr : Args -> string)
  (nc mk : bool) (pf : Z) (c avail skip installed : bool)
  (test_set : list Sample) (w : World) :
  let args := mkArgs nc mk true pf c in
  let args' := set_cuda args (negb nc && avail) in
  let w' := if mk
            then set_head_replaced true (set_model_layout Mkldnn (set_training false w))
            else w in
  let ov := validata meter_str clock forward loss_fn test_set args' w' in
  negb nc && avail && mk = false ->
  main meter_str clock forward loss_fn args_repr args avail skip installed test_set w =
  mkOutcome (EvPrint (args_repr args) :: events (backend_banner args' w) ++ events ov)
            (final ov)
            (match value ov with Ok _ => Ok tt | Err e => Err e end).
Proof.
  cbn zeta. intros Hsel.
  destruct nc, avail, mk; try discriminate Hsel; clear Hsel;
    unfold main, bind; cbn -[validata load_name];
    rewrite ?load_name_mkldnn_head_fcl; cbn -[validata load_name];
    match goal with
    | |- context [value (validata ?a ?b ?c ?d ?e ?f ?g)] =>
        destruct (value (validata a b c d e f g))
    end; cbn -[validata]; rewrite ?app_nil_r; reflexivity.
Qed.

(** C5, counterexample.  On the plain CPU backend the model is called in
    training mode; on the accelerator the model is left in evaluation mode
    although it was in training mode before the run. *)
Lemma inference_mode_not_scoped :
  ~ inference_mode_scoped Demo.meter_str Demo.clock Demo.forward_ok Demo.loss_ok
      Demo.args_repr (Demo.args_of true false true 1) false false true
      [Demo.batch 0] Demo.world0
  /\ ~ inference_mode_scoped Demo.meter_str Demo.clock Demo.forward_ok Demo.loss_ok
      Demo.args_repr (Demo.args_of false false true 1) true false true []
      Demo.world0.
Proof.
  split.
  - intros (Htr & _).
    assert (E : events (main Demo.meter_str Demo.clock Demo.forward_ok Demo.loss_ok
                  Demo.args_repr (Demo.args_of true false true 1) false
                  false true [Demo.batch 0] Demo.world0) !! 6%nat
                = Some (EvForward 0 true false (input (Demo.batch 0))))
      by (vm_compute; reflexivity).
    rewrite Forall_lookup in Htr.
    specialize (Htr _ _ E). cbn in Htr. discriminate Htr.
  - intros (_ & _ & Hfin & _). vm_compute in Hfin. discriminate Hfin.
Qed.

Lemma backend_banner_prints (args : Args) (w : World) :
  exists line, events (backend_banner args w) = [EvPrint line].
Proof.
  unfold backend_banner.
  destruct (cuda args); [eexists; reflexivity|].
  destruct (mkldnn args); eexists; reflexivity.
Qed.

Lemma select_backend_value_flags (nc mk ev : bool) (pf : Z) (c avail : bool) (w : World) :
  value (select_backend (mkArgs nc mk ev pf c) avail w) =
  if negb nc && avail && mk
  then Err (AssertionError backend_assert_msg)
  else Ok (mkArgs nc mk ev pf (negb nc && avail),
           if negb nc && avail then Accelerator
           else if mk then OptimizedCPU else PlainCPU).
Proof. rewrite select_backend_value. reflexivity. Qed.

(** C5, amended: in an evaluation run ([--evaluate]) every model and loss
    call is made with gradient tracking off, and the gradient mode found
    before the run is back in place when [main] is left, whether the run
    ended normally or by an exception.  When the backend is the accelerator
    or the optimized CPU backend, the model is moreover in evaluation mode
    at every call, and it stays in evaluation mode after the run: that
    switch is not undone. *)
Theorem evaluation_runs_without_gradients
  (meter_str : AverageMeter -> string) (clock : nat -> Q)
  (forward : nat -> gmap string Tensor -> result Z)
  (loss_fn : nat -> Z -> Tensor -> result Q) (args_repr : Args -> string)
  (nc mk : bool) (pf : Z) (c avail skip installed : bool)
  (test_set : list Sample) (w : World) :
  let args := mkArgs nc mk true pf c in
  let o := main meter_str clock forward loss_fn args_repr args avail skip installed test_set w in
  Forall (grad_is false) (events o)
  /\ grad_enabled (final o) = grad_enabled w
  /\ match value (select_backend args avail w) with
     | Ok (_, Accelerator) | Ok (_, OptimizedCPU) =>
         Forall (training_is false) (events o) /\ training (final o) = false
     | _ => True
     end.
Proof.
  cbn zeta.
  destruct (negb nc && avail && mk) eqn:Hsel.
  - destruct nc, avail, mk; try discriminate Hsel.
    repeat split; repeat constructor.
  - rewrite main_evaluate by exact Hsel. cbn [events final].
    rewrite select_backend_value_flags, Hsel.
    match goal with
    | |- context [validata ?a ?b ?c ?d ?e ?f ?g] =>
        pose proof (validata_modes a b c d e f g) as Hv;
        set (ov := validata a b c d e f g) in *
    end.
    cbn zeta in Hv. destruct Hv as (Hev & Hg & Ht).
    destruct (backend_banner_prints
                (set_cuda (mkArgs nc mk true pf c) (negb nc && avail)) w)
      as [line ->].
    split; [|split].
    + constructor; [exact Logic.I|]. constructor; [exact Logic.I|].
      eapply Forall_impl; [exact Hev|]. intros ev [H _]. exact H.
    + rewrite Hg. destruct mk; reflexivity.
    + cbn [cuda mkldnn set_cuda] in *.
      destruct (negb nc && avail) eqn:Hcu.
      * split; [|exact Ht].
        constructor; [exact Logic.I|]. constructor; [exact Logic.I|].
        eapply Forall_impl; [exact Hev|]. intros ev [_ H]. exact H.
      * destruct mk; [|exact Logic.I].
        split; [|exact Ht].
        constructor; [exact Logic.I|]. constructor; [exact Logic.I|].
        eapply Forall_impl; [exact Hev|]. intros ev [_ H]. exact H.
Qed.

(** * One iteration and the loop, case by case *)

Lemma bind_ok {A B} (m : M A) (f : A -> M B) (w : World) (a : A) :
  value (m w) = Ok a ->
  bind m f w =
  mkOutcome (events (m w) ++ events (f a (final (m w))))
            (final (f a (final (m w))))
            (value (f a (final (m w)))).
Proof. intros H. unfold bind. rewrite H. reflexivity. Qed.

Lemma bind_err {A B} (m : M A) (f : A -> M B) (w : World) (e : Exc) :
  value (m w) = Err e ->
  bind m f w = mkOutcome (events (m w)) (final (m w)) (Err e).
Proof. intros H. unfold bind. rewrite H. reflexivity. Qed.

Lemma process_batch_outcome
  (clock : nat -> Q) (forward : nat -> gmap string Tensor -> result Z)
  (loss_fn : nat -> Z -> Tensor -> result Q)
  (args : Args) (i : nat) (sample : Sample) (st : LoopState) (w : World) :
  let ot := _time clock (cuda args) w in
  process_batch clock forward loss_fn args i sample st w =
  match update (data_time st) (clock (ticks w) - end_ st)%Q 1 with
  | Err e => mkOutcome (events ot) (final ot) (Err e)
  | Ok dt' =>
    match convert args sample with
    | Err e => mkOutcome (events ot) (final ot) (Err e)
    | Ok conv =>
      let om := call_model forward i (fst conv) (final ot) in
      match forward i (fst conv) with
      | Err e => mkOutcome (events ot ++ events om) (final om) (Err e)
      | Ok out =>
        let ol := call_loss loss_fn i out (snd conv) (final om) in
        match loss_fn i out (snd conv) with
        | Err e => mkOutcome (events ot ++ events om ++ events ol) (final ol) (Err e)
        | Ok _ =>
          let ot2 := _time clock (cuda args) (final ol) in
          match update (batch_time st) (clock (ticks (final ol)) - end_ st)%Q 1 with
          | Err e =>
              mkOutcome (events ot ++ events om ++ events ol ++ events ot2)
                        (final ot2) (Err e)
          | Ok bt' =>
              let ot3 := _time clock (cuda args) (final ot2) in
              mkOutcome (events ot ++ events om ++ events ol ++ events ot2 ++ events ot3)
                        (final ot3)
                        (Ok {| end_ := clock (ticks (final ot2)); batch_time := bt';
                               data_time := dt'; losses := losses st |})
          end
        end
      end
    end
  end.
Proof.
  cbn zeta. unfold process_batch.
  rewrite (bind_ok _ _ _ _ (time_value clock (cuda args) w)).
  set (w1 := final (_time clock (cuda args) w)).
  destruct (update (data_time st) _ 1) as [dt'|e] eqn:Hdt.
  2:{ rewrite (bind_err (lift (Err e)) _ w1 e eq_refl). cbn. now rewrite app_nil_r. }
  rewrite (bind_ok (lift (Ok dt')) _ w1 dt' eq_refl). cbn [lift events final app].
  destruct (convert args sample) as [conv|e] eqn:Hconv.
  2:{ rewrite (bind_err (lift (Err e)) _ w1 e eq_refl). cbn. now rewrite app_nil_r. }
  rewrite (bind_ok (lift (Ok conv)) _ w1 conv eq_refl). cbn [lift events final app].
  set (om := call_model forward i (fst conv) w1).
  assert (Hvm : value om = forward i (fst conv)) by reflexivity.
  destruct (forward i (fst conv)) as [out|e] eqn:Hf.
  2:{ rewrite (bind_err _ _ w1 e Hvm). reflexivity. }
  rewrite (bind_ok _ _ w1 out Hvm). fold om.
  set (ol := call_loss loss_fn i out (snd conv) (final om)).
  assert (Hvl : value ol = loss_fn i out (snd conv)) by reflexivity.
  destruct (loss_fn i out (snd conv)) as [l|e] eqn:Hl.
  2:{ rewrite (bind_err _ _ (final om) e Hvl). reflexivity. }
  rewrite (bind_ok _ _ (final om) l Hvl). fold ol.
  rewrite (bind_ok _ _ _ _ (time_value clock (cuda args) (final ol))).
  set (ot2 := _time clock (cuda args) (final ol)).
  destruct (update (batch_time st) _ 1) as [bt'|e] eqn:Hbt.
  2:{ rewrite (bind_err (lift (Err e)) _ (final ot2) e eq_refl). cbn.
      now rewrite app_nil_r. }
  rewrite (bind_ok (lift (Ok bt')) _ (final ot2) bt' eq_refl). cbn [lift events final app].
  rewrite (bind_ok _ _ _ _ (time_value clock (cuda args) (final ot2))).
  cbn [ret events final value]. rewrite app_nil_r. reflexivity.
Qed.

Lemma update_count (m m' : AverageMeter) (v : Q) (n : Z) :
  update m v n = Ok m' -> count m' = count m + n.
Proof.
  unfold update. destruct (count m + n =? 0); [discriminate|].
  intros [= <-]. reflexivity.
Qed.

Ltac batch_cases :=
  rewrite process_batch_outcome; cbn zeta;
  repeat match goal with
         | |- context [match ?r with Ok _ => _ | Err _ => _ end] =>
             destruct r eqn:?
         end;
  cbn [events final value].

Lemma process_batch_ok
  (clock : nat -> Q) (forward : nat -> gmap string Tensor -> result Z)
  (loss_fn : nat -> Z -> Tensor -> result Q)
  (args : Args) (i : nat) (sample : Sample) (st st' : LoopState) (w : World) :
  value (process_batch clock forward loss_fn args i sample st w) = Ok st' ->
  count (batch_time st') = count (batch_time st) + 1
  /\ count (data_time st') = count (data_time st) + 1
  /\ losses st' = losses st
  /\ compute_raises forward loss_fn args i sample = false.
Proof.
  unfold compute_raises. batch_cases; try discriminate.
  intros [= <-]. cbn.
  repeat split; eauto using update_count.
Qed.

Lemma time_events_quiet (clock : nat -> Q) (b : bool) (w : World) :
  Forall (fun ev => ev_batch ev = None) (events (_time clock b w)).
Proof. destruct b; repeat constructor. Qed.

Lemma time_forward_batches (clock : nat -> Q) (b : bool) (w : World) :
  forward_batches (events (_time clock b w)) = [].
Proof. destruct b; reflexivity. Qed.

Lemma time_report_batches (clock : nat -> Q) (b : bool) (w : World) :
  report_batches (events (_time clock b w)) = [].
Proof. destruct b; reflexivity. Qed.

Lemma forward_batches_app (l1 l2 : list Event) :
  forward_batches (l1 ++ l2) = forward_batches l1 ++ forward_batches l2.
Proof. apply omap_app. Qed.

Lemma report_batches_app (l1 l2 : list Event) :
  report_batches (l1 ++ l2) = report_batches l1 ++ report_batches l2.
Proof. apply omap_app. Qed.

Lemma process_batch_forward_once
  (clock : nat -> Q) (forward : nat -> gmap string Tensor -> result Z)
  (loss_fn : nat -> Z -> Tensor -> result Q)
  (args : Args) (i : nat) (sample : Sample) (st : LoopState) (w : World) :
  let o := process_batch clock forward loss_fn args i sample st w in
  forward_batches (events o) = [i]
  \/ (forward_batches (events o) = [] /\ is_ok (value o) = false).
Proof.
  cbn zeta. batch_cases;
    rewrite ?forward_batches_app, ?time_forward_batches; cbn; auto.
Qed.

Lemma process_batch_events
  (clock : nat -> Q) (forward : nat -> gmap string Tensor -> result Z)
  (loss_fn : nat -> Z -> Tensor -> result Q)
  (args : Args) (i : nat) (sample : Sample) (st : LoopState) (w : World) :
  let o := process_batch clock forward loss_fn args i sample st w in
  Forall (fun ev => forall j, ev_batch ev = Some j -> j = i) (events o)
  /\ report_batches (events o) = [].
Proof.
  cbn zeta.
  assert (Ht : forall b w', Forall (fun ev => forall j, ev_batch ev = Some j -> j = i)
                              (events (_time clock b w'))).
  { intros b w'. eapply Forall_impl; [apply time_events_quiet|].
    cbn. intros ev -> j [=]. }
  batch_cases;
    (split;
     [ repeat (apply Forall_app; split); try apply Ht;
       repeat constructor; cbn; congruence
     | rewrite ?report_batches_app, ?time_report_batches; reflexivity ]).
Qed.

Lemma maybe_report_outcome
  (meter_str : AverageMeter -> string) (args : Args) (p : ProgressMeter)
  (i : nat) (st : LoopState) (w : World) :
  maybe_report meter_str args p i st w =
  mkOutcome
    (if print_freq args =? 0 then []
     else if report_due args i
          then [EvReport i (display_line meter_str p i
                              [batch_time st; data_time st; losses st])]
          else [])
    w
    (if print_freq args =? 0 then Err ZeroDivisionError else Ok tt).
Proof.
  unfold maybe_report, report_due.
  destruct (print_freq args =? 0); [reflexivity|].
  destruct (_ =? 0); reflexivity.
Qed.

Lemma validata_loop_cons
  (meter_str : AverageMeter -> string) (clock : nat -> Q)
  (forward : nat -> gmap string Tensor -> result Z)
  (loss_fn : nat -> Z -> Tensor -> result Q)
  (args : Args) (p : ProgressMeter) (i : nat) (sample : Sample)
  (rest : list Sample) (st : LoopState) (w : World) :
  validata_loop meter_str clock forward loss_fn args p i (sample :: rest) st w =
  let opb := process_batch clock forward loss_fn args i sample st w in
  match value opb with
  | Err e => mkOutcome (EvFetch i :: events opb) (final opb) (Err e)
  | Ok st' =>
      let omr := maybe_report meter_str args p i st' (final opb) in
      match value omr with
      | Err e => mkOutcome (EvFetch i :: events opb ++ events omr) (final omr) (Err e)
      | Ok _ =>
          let orec := validata_loop meter_str clock forward loss_fn args p
                        (S i) rest st' (final omr) in
          mkOutcome (EvFetch i :: events opb ++ events omr ++ events orec)
                    (final orec) (value orec)
      end
  end.
Proof.
  cbn [validata_loop]. cbn zeta.
  rewrite (bind_ok (emit (EvFetch i)) _ w tt eq_refl). cbn [emit events final app].
  destruct (value (process_batch clock forward loss_fn args i sample st w))
    as [st'|e] eqn:Hpb.
  2:{ rewrite (bind_err _ _ w e Hpb). reflexivity. }
  rewrite (bind_ok _ _ w st' Hpb).
  destruct (value (maybe_report meter_str args p i st'
                     (final (process_batch clock forward loss_fn args i sample st w))))
    as [[]|e] eqn:Hmr.
  2:{ rewrite (bind_err _ _ _ e Hmr). reflexivity. }
  rewrite (bind_ok _ _ _ tt Hmr). reflexivity.
Qed.

(** * A failing model or loss call ends the run *)

Lemma batch_bound_weaken (i n : nat) (evs : list Event) :
  (i <= n)%nat ->
  Forall (fun ev => forall j, ev_batch ev = Some j -> j = i) evs ->
  Forall (fun ev => forall j, ev_batch ev = Some j -> (j <= n)%nat) evs.
Proof.
  intros Hin H. eapply Forall_impl; [exact H|].
  cbn. intros ev Hev j Hj. rewrite (Hev j Hj). exact Hin.
Qed.

Lemma report_batches_fetch (i : nat) (evs : list Event) :
  report_batches (EvFetch i :: evs) = report_batches evs.
Proof. reflexivity. Qed.

Lemma forward_batches_fetch (i : nat) (evs : list Event) :
  forward_batches (EvFetch i :: evs) = forward_batches evs.
Proof. reflexivity. Qed.

Section Abort.

Variable meter_str : AverageMeter -> string.
Variable clock : nat -> Q.
Variable forward : nat -> gmap string Tensor -> result Z.
Variable loss_fn : nat -> Z -> Tensor -> result Q.
Variable args : Args.
Variable progress : ProgressMeter.

Lemma validata_loop_abort (samples : list Sample) :
  forall (i k : nat) (st : LoopState) (w : World) (sample : Sample),
    samples !! k = Some sample ->
    compute_raises forward loss_fn args (i + k) sample = true ->
    let o := validata_loop meter_str clock forward loss_fn args progress
               i samples st w in
    is_ok (value o) = false
    /\ Forall (fun ev => forall j, ev_batch ev = Some j -> (j <= i + k)%nat) (events o)
    /\ Forall (fun j => (j < i + k)%nat) (report_batches (events o))
    /\ exists m, (m <= S k)%nat /\ forward_batches (events o) = seq i m.
Proof.
  induction samples as [|s rest IH]; intros i k st w sample Hk Hraise;
    [discriminate Hk|].
  cbn zeta. rewrite validata_loop_cons. cbn zeta.
  destruct (process_batch_events clock forward loss_fn args i s st w) as [Hidx Hrep].
  pose proof (process_batch_forward_once clock forward loss_fn args i s st w) as Hfw.
  cbn zeta in Hfw.
  set (opb := process_batch clock forward loss_fn args i s st w) in *.
  destruct (value opb) as [st'|e] eqn:Hpb.
  - destruct (process_batch_ok clock forward loss_fn args i s st st' w Hpb)
      as (_ & _ & _ & Hnr).
    destruct Hfw as [Hfw|[_ Hbad]]; [|discriminate Hbad].
    destruct k as [|k'].
    { cbn in Hk. injection Hk as ->. rewrite Nat.add_0_r in Hraise. congruence. }
    cbn in Hk.
    rewrite maybe_report_outcome. cbn [events final value].
    set (evr := if print_freq args =? 0 then []
                else if report_due args i
                     then [EvReport i (display_line meter_str progress i
                                         [batch_time st'; data_time st'; losses st'])]
                     else []).
    assert (Hevr_idx : Forall (fun ev => forall j, ev_batch ev = Some j -> j = i) evr).
    { subst evr. destruct (print_freq args =? 0); [constructor|].
      destruct (report_due args i); repeat constructor. cbn. congruence. }
    assert (Hevr_rep : Forall (fun j => (j < i + S k')%nat) (report_batches evr)).
    { subst evr. destruct (print_freq args =? 0); [constructor|].
      destruct (report_due args i); repeat constructor. lia. }
    assert (Hevr_fw : forward_batches evr = []).
    { subst evr. destruct (print_freq args =? 0); [reflexivity|].
      destruct (report_due args i); reflexivity. }
    destruct (print_freq args =? 0) eqn:Hpf; cbn [events final value].
    + split; [reflexivity|]. split; [|split].
      * constructor; [cbn; intros j [= <-]; lia|].
        apply Forall_app. split; apply (batch_bound_weaken i); (lia || assumption).
      * rewrite report_batches_fetch, !report_batches_app, Hrep. cbn [app].
        exact Hevr_rep.
      * exists 1%nat. split; [lia|].
        rewrite forward_batches_fetch, !forward_batches_app, Hfw, Hevr_fw. reflexivity.
    + replace (i + S k')%nat with (S i + k')%nat in * by lia.
      destruct (IH (S i) k' st' (final opb) sample Hk Hraise)
        as (Hv & Hb & Hr & m & Hm & Hfwd).
      cbn zeta in Hv, Hb, Hr, Hfwd.
      split; [exact Hv|]. split; [|split].
      * constructor; [cbn; intros j [= <-]; lia|].
        apply Forall_app. split; [apply (batch_bound_weaken i); (lia || assumption)|].
        apply Forall_app. split; [apply (batch_bound_weaken i); (lia || assumption)|].
        exact Hb.
      * rewrite report_batches_fetch, !report_batches_app, Hrep. cbn [app].
        apply Forall_app. split; [exact Hevr_rep | exact Hr].
      * exists (S m). split; [lia|].
        rewrite forward_batches_fetch, !forward_batches_app, Hfw, Hevr_fw, Hfwd. reflexivity.
  - cbn [events final value]. split; [reflexivity|]. split; [|split].
    + constructor; [cbn; intros j [= <-]; lia|].
      apply (batch_bound_weaken i); (lia || assumption).
    + rewrite report_batches_fetch, Hrep. constructor.
    + rewrite forward_batches_fetch.
      destruct Hfw as [->|[-> _]].
      * exists 1%nat. split; [lia | reflexivity].
      * exists 0%nat. split; [lia | reflexivity].
Qed.

End Abort.

(** C6: when the model call or the loss call of batch [k] raises, the run
    of [validata] ends with an exception; the log holds no fetch, model
    call, loss call or progress line of a batch after [k], no progress line
    of batch [k] itself, and the model was called once for each of the
    batches 0, 1, ... in turn and at most up to [k]: no batch was retried
    and none was skipped. *)
Theorem failing_call_aborts_run
  (meter_str : AverageMeter -> string) (clock : nat -> Q)
  (forward : nat -> gmap string Tensor -> result Z)
  (loss_fn : nat -> Z -> Tensor -> result Q)
  (samples : list Sample) (args : Args) (w : World) (k : nat) (sample : Sample) :
  samples !! k = Some sample ->
  compute_raises forward loss_fn args k sample = true ->
  let o := validata meter_str clock forward loss_fn samples args w in
  is_ok (value o) = false
  /\ Forall (fun ev => forall j, ev_batch ev = Some j -> (j <= k)%nat) (events o)
  /\ Forall (fun j => (j < k)%nat) (report_batches (events o))
  /\ exists m, (m <= S k)%nat /\ forward_batches (events o) = seq 0 m.
Proof.
  intros Hk Hraise. cbn zeta. rewrite validata_unfold. cbn [events value].
  match goal with
  | |- context [validata_loop ?a ?b ?c ?d ?e ?f ?g ?h ?i ?j] =>
      destruct (validata_loop_abort a b c d e f h g k i j sample Hk Hraise)
        as (Hv & Hb & Hr & m & Hm & Hfw);
      set (o := validata_loop a b c d e f g h i j) in *
  end.
  cbn zeta in Hv, Hb, Hr, Hfw. cbn [Nat.add] in Hb, Hr.
  split; [exact Hv|]. split; [|split].
  - constructor; [cbn; intros j [=]|].
    apply Forall_app. split; [|exact Hb].
    eapply Forall_impl; [apply time_events_quiet|].
    cbn. intros ev -> j [=].
  - change (Forall (fun j => (j < k)%nat)
              (report_batches (events (_time clock (cuda args)
                 (set_grad_enabled false
                    (if cuda args
                     then set_model_layout Cuda (set_training false w)
                     else w))) ++ events o))).
    rewrite report_batches_app, time_report_batches. exact Hr.
  - exists m. split; [exact Hm|].
    change (forward_batches (events (_time clock (cuda args)
                 (set_grad_enabled false
                    (if cuda args
                     then set_model_layout Cuda (set_training false w)
                     else w))) ++ events o) = seq 0 m).
    rewrite forward_batches_app, time_forward_batches. exact Hfw.
Qed.

Lemma failing_call_aborts_run_witness :
  let args := Demo.args_of true false true 1 in
  let o := validata Demo.meter_str Demo.clock Demo.forward_fail_at_1 Demo.loss_ok
             demo_five args Demo.world0 in
  demo_five !! 1%nat = Some (Demo.batch 1)
  /\ compute_raises Demo.forward_fail_at_1 Demo.loss_ok args 1 (Demo.batch 1) = true
  /\ is_ok (value o) = false
  /\ Forall (fun ev => forall j, ev_batch ev = Some j -> (j <= 1)%nat) (events o)
  /\ Forall (fun j => (j < 1)%nat) (report_batches (events o))
  /\ exists m, (m <= 2)%nat /\ forward_batches (events o) = seq 0 m.
Proof.
  cbn zeta.
  assert (Hk : demo_five !! 1%nat = Some (Demo.batch 1)) by reflexivity.
  assert (Hr : compute_raises Demo.forward_fail_at_1 Demo.loss_ok
                 (Demo.args_of true false true 1) 1 (Demo.batch 1) = true)
    by (vm_compute; reflexivity).
  split; [exact Hk|]. split; [exact Hr|].
  exact (failing_call_aborts_run Demo.meter_str Demo.clock Demo.forward_fail_at_1
           Demo.loss_ok demo_five (Demo.args_of true false true 1) Demo.world0
           1 (Demo.batch 1) Hk Hr).
Defined.

(** * A run that ends normally: progress lines and meter counts *)

Section Completed.

Variable meter_str : AverageMeter -> string.
Variable clock : nat -> Q.
Variable forward : nat -> gmap string Tensor -> result Z.
Variable loss_fn : nat -> Z -> Tensor -> result Q.
Variable args : Args.
Variable progress : ProgressMeter.

Lemma validata_loop_ok (samples : list Sample) :
  forall (i : nat) (st st' : LoopState) (w : World),
    let o := validata_loop meter_str clock forward loss_fn args progress
               i samples st w in
    value o = Ok st' ->
    count (batch_time st') = count (batch_time st) + Z.of_nat (length samples)
    /\ count (data_time st') = count (data_time st) + Z.of_nat (length samples)
    /\ losses st' = losses st
    /\ report_batches (events o)
       = List.filter (report_due args) (seq i (length samples)).
Proof.
  induction samples as [|s rest IH]; intros i st st' w; cbn zeta.
  - cbn. intros [= <-]. repeat split; lia.
  - rewrite validata_loop_cons. cbn zeta.
    destruct (process_batch_events clock forward loss_fn args i s st w) as [_ Hrep].
    set (opb := process_batch clock forward loss_fn args i s st w) in *.
    destruct (value opb) as [st1|e] eqn:Hpb; [|discriminate].
    destruct (process_batch_ok clock forward loss_fn args i s st st1 w Hpb)
      as (Hbt & Hdt & Hls & _).
    rewrite maybe_report_outcome. cbn [events final value].
    destruct (print_freq args =? 0) eqn:Hpf; [discriminate|].
    cbn [events final value]. intros Hrec.
    destruct (IH (S i) st1 st' (final opb) Hrec) as (Hbt' & Hdt' & Hls' & Hrep').
    rewrite Hbt', Hdt', Hls', Hbt, Hdt, Hls.
    repeat split; try (cbn [length]; lia).
    rewrite report_batches_fetch, !report_batches_app, Hrep, Hrep'.
    cbn [length seq List.filter app].
    destruct (report_due args i); reflexivity.
Qed.

End Completed.

(** C7: a run of [validata] that ends normally has printed a progress line
    for exactly the batches [i] with [i % print_freq == 0], in increasing
    order, and leaves [batch_time] and [data_time] with a count equal to the
    number of batches, while the [Loss] meter has received no update: its
    count is 0.  With no batch at all the run ends normally without a
    progress line.  (With three batches and [print_freq = 1] the lines are
    those of batches 0, 1, 2 and the counts are 3, 3 and 0.) *)
Theorem validata_reports_and_counts
  (meter_str : AverageMeter -> string) (clock : nat -> Q)
  (forward : nat -> gmap string Tensor -> result Z)
  (loss_fn : nat -> Z -> Tensor -> result Q)
  (samples : list Sample) (args : Args) (w : World) :
  (forall st : LoopState,
      value (validata meter_str clock forward loss_fn samples args w) = Ok st ->
      report_batches (events (validata meter_str clock forward loss_fn samples args w))
      = List.filter (report_due args) (seq 0 (length samples))
      /\ count (batch_time st) = Z.of_nat (length samples)
      /\ count (data_time st) = Z.of_nat (length samples)
      /\ count (losses st) = 0)
  /\ is_ok (value (validata meter_str clock forward loss_fn [] args w)) = true
  /\ report_batches (events (validata meter_str clock forward loss_fn [] args w)) = [].
Proof.
  split.
  - intros st. rewrite validata_unfold. cbn [events value]. intros Hst.
    match goal with
    | H : value (validata_loop ?a ?b ?c ?d ?e ?f ?g ?h ?i ?j) = Ok st |- _ =>
        destruct (validata_loop_ok a b c d e f h g i st j H)
          as (Hbt & Hdt & Hls & Hrep)
    end.
    cbn zeta in Hrep. rewrite Hbt, Hdt, Hls.
    repeat split; try reflexivity.
    match goal with
    | |- report_batches (?e :: ?a ++ ?b) = _ =>
        change (report_batches ([e] ++ a ++ b)
                = List.filter (report_due args) (seq 0 (length samples)))
    end.
    rewrite !report_batches_app, time_report_batches, Hrep. reflexivity.
  - rewrite validata_unfold. cbn [events value validata_loop ret].
    split; [reflexivity|].
    match goal with
    | |- report_batches (?e :: ?a ++ ?b) = _ =>
        change (report_batches ([e] ++ a ++ b) = [])
    end.
    rewrite !report_batches_app, time_report_batches. reflexivity.
Qed.

Lemma validata_reports_and_counts_witness :
  let o := validata Demo.meter_str Demo.clock Demo.forward_ok Demo.loss_ok
             demo_three (Demo.args_of true false true 1) Demo.world0 in
  exists st,
    value o = Ok st
    /\ report_batches (events o) = [0; 1; 2]%nat
    /\ count (batch_time st) = 3
    /\ count (data_time st) = 3
    /\ count (losses st) = 0.
Proof.
  cbn zeta.
  destruct (value (validata Demo.meter_str Demo.clock Demo.forward_ok Demo.loss_ok
                     demo_three (Demo.args_of true false true 1) Demo.world0))
    as [st|e] eqn:E; [|vm_compute in E; discriminate E].
  exists st. split; [reflexivity|].
  exact (proj1 (validata_reports_and_counts Demo.meter_str Demo.clock Demo.forward_ok
                  Demo.loss_ok demo_three (Demo.args_of true false true 1)
                  Demo.world0) st E).
Defined.

(** * Moving a batch to the backend *)

Lemma convert_cuda (args : Args) (sample : Sample) (v a : Tensor) :
  cuda args = true ->
  input sample !! "video" = Some v -> input sample !! "audio" = Some a ->
  convert args sample =
  Ok (<["audio" := tensor_cuda a]> (<["video" := tensor_cuda v]> (input sample)),
      tensor_cuda (target sample)).
Proof.
  intros Hc Hv Ha. unfold convert, getitem. rewrite Hc, Hv.
  rewrite lookup_insert_ne by discriminate. rewrite Ha. reflexivity.
Qed.

Lemma convert_mkldnn (args : Args) (sample : Sample) (v a : Tensor) :
  cuda args = false -> mkldnn args = true ->
  input sample !! "video" = Some v -> input sample !! "audio" = Some a ->
  convert args sample =
  Ok (<["audio" := tensor_to_mkldnn a]>
        (<["video" := tensor_to_mkldnn v]> (input sample)),
      target sample).
Proof.
  intros Hc Hm Hv Ha. unfold convert, getitem. rewrite Hc, Hm, Hv.
  rewrite lookup_insert_ne by discriminate. rewrite Ha. reflexivity.
Qed.

Lemma convert_plain (args : Args) (sample : Sample) :
  cuda args = false -> mkldnn args = false ->
  convert args sample = Ok (input sample, target sample).
Proof.
  intros Hc Hm. unfold convert. rewrite Hc, Hm. reflexivity.
Qed.

Lemma time_events_no_call (clock : nat -> Q) (b : bool) (w : World) (ev : Event) :
  ev ∈ events (_time clock b w) -> ev_batch ev = None.
Proof.
  intros Hin. pose proof (time_events_quiet clock b w) as H.
  rewrite Forall_forall in H. now apply H.
Qed.

(** What the model and the loss are called with in one iteration. *)
Lemma process_batch_calls
  (clock : nat -> Q) (forward : nat -> gmap string Tensor -> result Z)
  (loss_fn : nat -> Z -> Tensor -> result Q)
  (args : Args) (i : nat) (sample : Sample) (st : LoopState) (w : World)
  (inputs' : gmap string Tensor) (tgt' : Tensor) :
  convert args sample = Ok (inputs', tgt') ->
  0 <= count (data_time st) ->
  let evs := events (process_batch clock forward loss_fn args i sample st w) in
  (exists tr g, EvForward i tr g inputs' ∈ evs)
  /\ (forall j tr g inp, EvForward j tr g inp ∈ evs -> inp = inputs')
  /\ (forall j g t, EvLoss j g t ∈ evs -> t = tgt').
Proof.
  intros Hconv Hcount. cbn zeta.
  rewrite process_batch_outcome. cbn zeta.
  rewrite update_positive by (assumption || lia).
  rewrite Hconv. cbn [fst snd].
  assert (Hq : forall b w' ev, ev ∈ events (_time clock b w') ->
                               ev_batch ev = Some i -> False).
  { intros b w' ev Hin. rewrite (time_events_no_call _ _ _ _ Hin). discriminate. }
  assert (Hqf : forall b w' j tr g inp,
             EvForward j tr g inp ∈ events (_time clock b w') -> inp = inputs').
  { intros b w' j tr g inp Hin. apply time_events_no_call in Hin. discriminate Hin. }
  assert (Hql : forall b w' j g t,
             EvLoss j g t ∈ events (_time clock b w') -> t = tgt').
  { intros b w' j g t Hin. apply time_events_no_call in Hin. discriminate Hin. }
  repeat match goal with
         | |- context [match ?r with Ok _ => _ | Err _ => _ end] => destruct r
         end;
    cbn [events call_model call_loss];
    (split;
     [ do 2 eexists; rewrite !elem_of_app, !list_elem_of_singleton; eauto
     | split;
       [ intros j tr g inp; rewrite !elem_of_app, !list_elem_of_singleton;
         intros Hin; decompose [or] Hin; eauto; congruence
       | intros j g t; rewrite !elem_of_app, !list_elem_of_singleton;
         intros Hin; decompose [or] Hin; eauto; congruence ] ]).
Qed.

(** C9: for a batch that has its [video] and [audio] entries, the
    conversion succeeds and changes nothing but what the backend calls
    for.  On the accelerator [video], [audio] and the target are moved with
    [.cuda()]; on the optimized CPU backend [video] and [audio] are
    converted with [.to_mkldnn()] and the target is the one of the batch;
    on the plain CPU backend inputs and target are those of the batch.  Any
    other entry of the input dict is untouched on every backend, and the
    model and the loss are called with exactly the converted inputs and
    target. *)
Theorem convert_touches_backend_fields
  (clock : nat -> Q) (forward : nat -> gmap string Tensor -> result Z)
  (loss_fn : nat -> Z -> Tensor -> result Q)
  (args : Args) (i : nat) (sample : Sample) (st : LoopState) (w : World)
  (v a : Tensor) :
  input sample !! "video" = Some v ->
  input sample !! "audio" = Some a ->
  0 <= count (data_time st) ->
  exists (inputs' : gmap string Tensor) (tgt' : Tensor),
    convert args sample = Ok (inputs', tgt')
    /\ (forall key : string, key <> "video" -> key <> "audio" ->
                             inputs' !! key = input sample !! key)
    /\ match active_backend args with
       | Accelerator =>
           inputs' !! "video" = Some (tensor_cuda v)
           /\ inputs' !! "audio" = Some (tensor_cuda a)
           /\ tgt' = tensor_cuda (target sample)
       | OptimizedCPU =>
           inputs' !! "video" = Some (tensor_to_mkldnn v)
           /\ inputs' !! "audio" = Some (tensor_to_mkldnn a)
           /\ tgt' = target sample
       | PlainCPU =>
           inputs' = input sample /\ tgt' = target sample
       end
    /\ (let evs := events (process_batch clock forward loss_fn args i sample st w) in
        (exists tr g, EvForward i tr g inputs' ∈ evs)
        /\ (forall j tr g inp, EvForward j tr g inp ∈ evs -> inp = inputs')
        /\ (forall j g t, EvLoss j g t ∈ evs -> t = tgt')).
Proof.
  intros Hv Ha Hcount. unfold active_backend.
  destruct (cuda args) eqn:Hc; [|destruct (mkldnn args) eqn:Hm].
  - pose proof (convert_cuda args sample v a Hc Hv Ha) as Hconv.
    do 2 eexists. split; [exact Hconv|]. split; [|split].
    + intros key H1 H2. now rewrite !lookup_insert_ne by congruence.
    + repeat split.
      * rewrite lookup_insert_ne by discriminate. apply lookup_insert_eq.
      * apply lookup_insert_eq.
    + now apply process_batch_calls.
  - pose proof (convert_mkldnn args sample v a Hc Hm Hv Ha) as Hconv.
    do 2 eexists. split; [exact Hconv|]. split; [|split].
    + intros key H1 H2. now rewrite !lookup_insert_ne by congruence.
    + repeat split.
      * rewrite lookup_insert_ne by discriminate. apply lookup_insert_eq.
      * apply lookup_insert_eq.
    + now apply process_batch_calls.
  - pose proof (convert_plain args sample Hc Hm) as Hconv.
    do 2 eexists. split; [exact Hconv|]. split; [|split].
    + reflexivity.
    + split; reflexivity.
    + now apply process_batch_calls.
Qed.

Lemma convert_touches_backend_fields_witness :
  input (Demo.batch 0) !! "video" = Some (mkTensor 0 Dense)
  /\ input (Demo.batch 0) !! "audio" = Some (mkTensor 100 Dense)
  /\ 0 <= count (data_time demo_state)
  /\ exists (inputs' : gmap string Tensor) (tgt' : Tensor),
      convert demo_cuda_args (Demo.batch 0) = Ok (inputs', tgt')
      /\ inputs' !! "video" = Some (mkTensor 0 Cuda)
      /\ inputs' !! "audio" = Some (mkTensor 100 Cuda)
      /\ tgt' = mkTensor 200 Cuda
      /\ exists tr g,
           EvForward 0 tr g inputs'
           ∈ events (process_batch Demo.clock Demo.forward_ok Demo.loss_ok
                       demo_cuda_args 0 (Demo.batch 0) demo_state Demo.world0).
Proof.
  assert (Hv : input (Demo.batch 0) !! "video" = Some (mkTensor 0 Dense))
    by (vm_compute; reflexivity).
  assert (Ha : input (Demo.batch 0) !! "audio" = Some (mkTensor 100 Dense))
    by (vm_compute; reflexivity).
  assert (Hc : 0 <= count (data_time demo_state)) by (cbn; lia).
  split; [exact Hv|]. split; [exact Ha|]. split; [exact Hc|].
  destruct (convert_touches_backend_fields Demo.clock Demo.forward_ok Demo.loss_ok
              demo_cuda_args 0 (Demo.batch 0) demo_state Demo.world0
              (mkTensor 0 Dense) (mkTensor 100 Dense) Hv Ha Hc)
    as (inputs' & tgt' & Hconv & _ & (Hvid & Haud & Htgt) & Hfw & _).
  exists inputs', tgt'.
  split; [exact Hconv|]. split; [exact Hvid|]. split; [exact Haud|].
  split; [exact Htgt|]. exact Hfw.
Defined.

(** * Further properties of backend selection *)

(** X1: whenever backend selection passes, the namespace it hands on never
    has both [cuda] and [mkldnn] set, [cuda] is "requested and available",
    the other flags are those given, and the backend announced is the one
    these flags name; the accelerator is only ever chosen when it was
    requested, is available and [--mkldnn] is absent.  With [--no-cuda]
    selection always passes. *)
Theorem selection_is_exclusive :
  (forall (args : Args) (avail : bool) (w : World) (args' : Args) (b : Backend),
      value (select_backend args avail w) = Ok (args', b) ->
      args' = set_cuda args (negb (no_cuda args) && avail)
      /\ cuda args' && mkldnn args' = false
      /\ b = active_backend args'
      /\ (b = Accelerator ->
          no_cuda args = false /\ avail = true /\ mkldnn args = false)
      /\ (b = OptimizedCPU -> mkldnn args = true /\ cuda args' = false)
      /\ (b = PlainCPU -> mkldnn args = false /\ cuda args' = false))
  /\ (forall (args : Args) (avail : bool) (w : World),
         no_cuda args = true ->
         is_ok (value (select_backend args avail w)) = true).
Proof.
  split.
  - intros args avail w args' b Hsel.
    rewrite select_backend_value in Hsel. cbn zeta in Hsel.
    destruct args as [nc mk ev pf c]. cbn in Hsel.
    destruct nc, avail, mk; cbn in Hsel; try discriminate Hsel;
      injection Hsel as <- <-; cbn;
      repeat split; try reflexivity; try discriminate.
  - intros args avail w Hnc. rewrite select_backend_value. cbn zeta.
    destruct args as [nc mk ev pf c]. cbn in *. subst nc. reflexivity.
Qed.

Lemma selection_is_exclusive_witness :
  value (select_backend (Demo.args_of false false true 10) true Demo.world0)
  = Ok (demo_cuda_args_10, Accelerator)
  /\ cuda demo_cuda_args_10 && mkldnn demo_cuda_args_10 = false
  /\ no_cuda (Demo.args_of true true true 10) = true
  /\ is_ok (value (select_backend (Demo.args_of true true true 10) true Demo.world0))
     = true.
Proof.
  assert (Hsel : value (select_backend (Demo.args_of false false true 10) true
                          Demo.world0)
                 = Ok (demo_cuda_args_10, Accelerator)) by reflexivity.
  split; [exact Hsel|].
  destruct (proj1 selection_is_exclusive _ _ _ _ _ Hsel) as (_ & Hex & _).
  split; [exact Hex|].
  assert (Hnc : no_cuda (Demo.args_of true true true 10) = true) by reflexivity.
  split; [exact Hnc|].
  exact (proj2 selection_is_exclusive (Demo.args_of true true true 10) true
           Demo.world0 Hnc).
Defined.

(** * Further properties of AverageMeter *)

Lemma update_all_names (calls : list (Q * Z)) :
  forall m m' : AverageMeter,
    update_all m calls = Ok m' -> name m' = name m /\ fmt m' = fmt m.
Proof.
  induction calls as [|[v n] rest IH]; intros m m'; cbn [update_all].
  - intros [= <-]. split; reflexivity.
  - unfold update. destruct (count m + n =? 0); [discriminate|].
    intros H. destruct (IH _ _ H) as [Hn Hf]. cbn in Hn, Hf. split; assumption.
Qed.

(** X2: a meter that has gone through any sequence of updates (whatever the
    weights) still carries the name and format it was built with, so
    [reset] puts it back into exactly the state of a newly built meter, and
    it then behaves like one under any further updates. *)
Theorem reset_after_updates (nm f : string) (calls : list (Q * Z)) (m : AverageMeter) :
  update_all (AverageMeter_init nm f) calls = Ok m ->
  reset m = AverageMeter_init nm f
  /\ forall more, update_all (reset m) more = update_all (AverageMeter_init nm f) more.
Proof.
  intros Hrun. destruct (update_all_names _ _ _ Hrun) as [Hn Hf].
  assert (Hreset : reset m = AverageMeter_init nm f).
  { unfold AverageMeter_init, reset. rewrite Hn, Hf. reflexivity. }
  split; [exact Hreset|]. intros more. now rewrite Hreset.
Qed.

Lemma reset_after_updates_witness :
  exists m,
    update_all (AverageMeter_init "Time" ":6.3f") demo_calls = Ok m
    /\ reset m = AverageMeter_init "Time" ":6.3f".
Proof.
  destruct (update_all (AverageMeter_init "Time" ":6.3f") demo_calls)
    as [m|e] eqn:E; [|vm_compute in E; discriminate E].
  exists m. split; [reflexivity|].
  exact (proj1 (reset_after_updates "Time" ":6.3f" demo_calls m E)).
Defined.

(** * Further properties of the progress line *)

Lemma format_d_own_width (n : Z) : format_d (String.length (str n)) n = str n.
Proof.
  unfold format_d. cbn zeta. rewrite Nat.sub_diag. reflexivity.
Qed.

Lemma string_app_assoc (a b c : string) : (a +:+ b) +:+ c = a +:+ (b +:+ c).
Proof.
  induction a as [|x a IH]; [reflexivity|].
  change (String x ((a +:+ b) +:+ c) = String x (a +:+ (b +:+ c))).
  now rewrite IH.
Qed.

Lemma string_app_nil_r (a : string) : a +:+ "" = a.
Proof.
  induction a as [|x a IH]; [reflexivity|].
  change (String x (a +:+ "") = String x a). now rewrite IH.
Qed.

Lemma batch_entry_shape (total batch : Z) :
  BatchFmt_format (_get_batch_fmtstr total) batch
  = "[" +:+ spaces (String.length (str total) - String.length (str batch))
        +:+ str batch +:+ "/" +:+ str total +:+ "]".
Proof.
  unfold _get_batch_fmtstr, BatchFmt_format at 1.
  cbn [before_field field_width after_field].
  rewrite Z.div_1_r.
  unfold BatchFmt_format. cbn [before_field field_width after_field].
  rewrite format_d_own_width. unfold format_d. cbn zeta.
  change ("" +:+ ?x) with x.
  rewrite string_app_nil_r, !string_app_assoc. reflexivity.
Qed.

Lemma str_length_mono (a b : Z) :
  0 <= a <= b -> (String.length (str a) <= String.length (str b))%nat.
Proof.
  intros Hab.
  apply (digit_count_mono a b); [exact Hab | |];
    apply str_length_digit_count; lia.
Qed.

(** X5: for every batch index between 0 and the number of batches, the
    bracketed entry of the progress line is "[", the index right aligned
    with spaces, "/", the number of batches without any padding, "]", and
    it always has the same length: twice the number of digits of the number
    of batches, plus three. *)
Theorem batch_entry_fixed_length (total batch : Z) :
  0 <= batch <= total ->
  let f := _get_batch_fmtstr total in
  BatchFmt_format f batch
  = "[" +:+ spaces (String.length (str total) - String.length (str batch))
        +:+ str batch +:+ "/" +:+ str total +:+ "]"
  /\ String.length (BatchFmt_format f batch)
     = (2 * String.length (str total) + 3)%nat.
Proof.
  intros Hb. cbn zeta.
  pose proof (batch_entry_shape total batch) as Hshape.
  split; [exact Hshape|]. rewrite Hshape.
  pose proof (str_length_mono batch total Hb).
  rewrite !string_length_app, spaces_length.
  cbn [String.length]. lia.
Qed.

Lemma batch_entry_fixed_length_witness :
  0 <= 9 <= 100
  /\ BatchFmt_format (_get_batch_fmtstr 100) 9 = "[  9/100]"
  /\ String.length (BatchFmt_format (_get_batch_fmtstr 100) 9) = 9%nat.
Proof.
  assert (H : 0 <= 9 <= 100) by lia.
  split; [exact H|].
  exact (batch_entry_fixed_length 100 9 H).
Defined.

(** X6: an index that is not smaller than the number of batches is never
    cut to the field width: the entry then holds the index in full, without
    padding, so the entry gets longer rather than wrong. *)
Theorem batch_entry_never_truncated (total batch : Z) :
  0 <= total <= batch ->
  BatchFmt_format (_get_batch_fmtstr total) batch
  = "[" +:+ str batch +:+ "/" +:+ str total +:+ "]".
Proof.
  intros Hb. rewrite batch_entry_shape.
  pose proof (str_length_mono total batch Hb) as Hlen.
  replace (String.length (str total) - String.length (str batch))%nat
    with 0%nat by lia.
  reflexivity.
Qed.

Lemma batch_entry_never_truncated_witness :
  0 <= 100 <= 1000
  /\ BatchFmt_format (_get_batch_fmtstr 100) 1000 = "[1000/100]".
Proof.
  assert (H : 0 <= 100 <= 1000) by lia.
  split; [exact H|].
  exact (batch_entry_never_truncated 100 1000 H).
Defined.

(** * Further properties of the evaluation loop *)

Lemma time_ticks (clock : nat -> Q) (b : bool) (w : World) :
  ticks (final (_time clock b w)) = S (ticks w).
Proof. destruct b; reflexivity. Qed.

Lemma time_pending (clock : nat -> Q) (w : World) :
  pending (final (_time clock true w)) = 0%nat.
Proof. reflexivity. Qed.

Lemma issue_if_ticks (b : bool) (w : World) : ticks (issue_if b w) = ticks w.
Proof. destruct b; reflexivity. Qed.

Lemma call_model_ticks (forward : nat -> gmap string Tensor -> result Z)
      (i : nat) (inp : gmap string Tensor) (w : World) :
  ticks (final (call_model forward i inp w)) = ticks w.
Proof. apply issue_if_ticks. Qed.

Lemma call_loss_ticks (loss_fn : nat -> Z -> Tensor -> result Q)
      (i : nat) (out : Z) (t : Tensor) (w : World) :
  ticks (final (call_loss loss_fn i out t w)) = ticks w.
Proof. apply issue_if_ticks. Qed.

(** One iteration that ends normally, in full. *)
Lemma process_batch_ok_detail
  (clock : nat -> Q) (forward : nat -> gmap string Tensor -> result Z)
  (loss_fn : nat -> Z -> Tensor -> result Q)
  (args : Args) (i : nat) (sample : Sample) (st st' : LoopState) (w : World) :
  let o := process_batch clock forward loss_fn args i sample st w in
  value o = Ok st' ->
  update (data_time st) (clock (ticks w) - end_ st)%Q 1 = Ok (data_time st')
  /\ update (batch_time st) (clock (S (ticks w)) - end_ st)%Q 1 = Ok (batch_time st')
  /\ end_ st' = clock (S (S (ticks w)))
  /\ losses st' = losses st
  /\ ticks (final o) = S (S (S (ticks w)))
  /\ forward_batches (events o) = [i]
  /\ (cuda args = true -> pending (final o) = 0%nat).
Proof.
  cbn zeta. rewrite process_batch_outcome. cbn zeta.
  destruct (update (data_time st) _ 1) as [dt'|e] eqn:Hdt; [|discriminate].
  destruct (convert args sample) as [conv|e]; [|discriminate].
  destruct (forward i (fst conv)) as [out|e]; [|discriminate].
  destruct (loss_fn i out (snd conv)) as [l|e]; [|discriminate].
  rewrite call_loss_ticks, call_model_ticks, time_ticks.
  destruct (update (batch_time st) _ 1) as [bt'|e] eqn:Hbt; [|discriminate].
  cbn [value final events]. intros [= <-]. cbn [data_time batch_time end_ losses].
  repeat first [ rewrite time_ticks | rewrite issue_if_ticks
               | rewrite call_loss_ticks | rewrite call_model_ticks ].
  do 5 (split; [reflexivity|]). split.
  - rewrite !forward_batches_app, !time_forward_batches. reflexivity.
  - intros ->. apply time_pending.
Qed.

(** One iteration whose conversion, model call and loss call succeed. *)
Lemma process_batch_success
  (clock : nat -> Q) (forward : nat -> gmap string Tensor -> result Z)
  (loss_fn : nat -> Z -> Tensor -> result Q)
  (args : Args) (i : nat) (sample : Sample) (st : LoopState) (w : World) :
  0 <= count (data_time st) -> 0 <= count (batch_time st) ->
  batch_computes forward loss_fn args i sample = true ->
  exists st', value (process_batch clock forward loss_fn args i sample st w) = Ok st'.
Proof.
  intros Hdt Hbt Hc. unfold batch_computes in Hc.
  rewrite process_batch_outcome. cbn zeta.
  rewrite !update_positive by (assumption || lia).
  destruct (convert args sample) as [conv|e]; [|discriminate].
  destruct (forward i (fst conv)) as [out|e]; [|discriminate].
  destruct (loss_fn i out (snd conv)) as [l|e]; [|discriminate].
  rewrite update_positive by (assumption || lia).
  eexists. reflexivity.
Qed.

Section Completes.

Variable meter_str : AverageMeter -> string.
Variable clock : nat -> Q.
Variable forward : nat -> gmap string Tensor -> result Z.
Variable loss_fn : nat -> Z -> Tensor -> result Q.
Variable args : Args.
Variable progress : ProgressMeter.

Lemma validata_loop_completes (samples : list Sample) :
  print_freq args <> 0 ->
  forall (i : nat) (st : LoopState) (w : World),
    0 <= count (data_time st) -> 0 <= count (batch_time st) ->
    (forall k s, samples !! k = Some s ->
                 batch_computes forward loss_fn args (i + k) s = true) ->
    let o := validata_loop meter_str clock forward loss_fn args progress
               i samples st w in
    exists st',
      value o = Ok st'
      /\ ticks (final o) = (ticks w + 3 * length samples)%nat
      /\ forward_batches (events o) = seq i (length samples)
      /\ (cuda args = true -> pending w = 0%nat -> pending (final o) = 0%nat).
Proof.
  intros Hpf. apply Z.eqb_neq in Hpf.
  induction samples as [|s rest IH]; intros i st w Hdt Hbt Hall; cbn zeta.
  - exists st. cbn. repeat split; [lia | auto].
  - rewrite validata_loop_cons. cbn zeta.
    assert (Hs : batch_computes forward loss_fn args i s = true).
    { specialize (Hall 0%nat s eq_refl). now rewrite Nat.add_0_r in Hall. }
    destruct (process_batch_success clock forward loss_fn args i s st w Hdt Hbt Hs)
      as [st1 Hpb].
    destruct (process_batch_ok_detail clock forward loss_fn args i s st st1 w Hpb)
      as (_ & _ & _ & _ & Hticks & Hfw & Hpend).
    destruct (process_batch_ok clock forward loss_fn args i s st st1 w Hpb)
      as (Hbt1 & Hdt1 & _ & _).
    set (opb := process_batch clock forward loss_fn args i s st w) in *.
    rewrite Hpb, maybe_report_outcome, Hpf. cbn [events final value].
    destruct (IH (S i) st1 (final opb)) as (st' & Hv & Ht & Hf & Hp);
      [lia | lia | |].
    { intros k s' Hk. replace (S i + k)%nat with (i + S k)%nat by lia.
      apply Hall. exact Hk. }
    cbn zeta in Hv, Ht, Hf, Hp.
    exists st'. split; [exact Hv|]. split; [|split].
    + rewrite Ht, Hticks. cbn [length]. lia.
    + rewrite forward_batches_fetch, !forward_batches_app, Hfw, Hf.
      replace (forward_batches (if report_due args i then _ else [])) with (@nil nat)
        by (destruct (report_due args i); reflexivity).
      reflexivity.
    + intros Hc _. apply Hp; [exact Hc | apply Hpend, Hc].
Qed.

End Completes.

(** X7: if [print_freq] is not 0 and the conversion, the model call and the
    loss call succeed on every batch, the run of [validata] ends normally:
    the model has been called once for each batch, in order, the clock has
    been read once before the loop and three times per batch, and on the
    accelerator no work is outstanding when the run is over. *)
Theorem validata_completes
  (meter_str : AverageMeter -> string) (clock : nat -> Q)
  (forward : nat -> gmap string Tensor -> result Z)
  (loss_fn : nat -> Z -> Tensor -> result Q)
  (samples : list Sample) (args : Args) (w : World) :
  print_freq args <> 0 ->
  (forall k s, samples !! k = Some s ->
               batch_computes forward loss_fn args k s = true) ->
  let o := validata meter_str clock forward loss_fn samples args w in
  exists st,
    value o = Ok st
    /\ ticks (final o) = (ticks w + 1 + 3 * length samples)%nat
    /\ forward_batches (events o) = seq 0 (length samples)
    /\ (cuda args = true -> pending (final o) = 0%nat).
Proof.
  intros Hpf Hall. cbn zeta. rewrite validata_unfold. cbn [events value final].
  match goal with
  | |- context [validata_loop ?a ?b ?c ?d ?e ?f ?g ?h ?i ?j] =>
      destruct (validata_loop_completes a b c d e f h Hpf g i j)
        as (st & Hv & Ht & Hf & Hp);
      [cbn; lia | cbn; lia | exact Hall |];
      set (o := validata_loop a b c d e f g h i j) in *
  end.
  cbn zeta in Hv, Ht, Hf, Hp.
  exists st. split; [exact Hv|]. split; [|split].
  - change (ticks (set_grad_enabled (grad_enabled w) (final o))) with (ticks (final o)).
    rewrite Ht, time_ticks. destruct (cuda args); cbn; lia.
  - match goal with
    | |- forward_batches (?e :: ?a ++ ?b) = _ =>
        change (forward_batches ([e] ++ a ++ b) = seq 0 (length samples))
    end.
    rewrite !forward_batches_app, time_forward_batches. exact Hf.
  - intros Hc.
    change (pending (set_grad_enabled (grad_enabled w) (final o)))
      with (pending (final o)).
    apply Hp; [exact Hc|]. rewrite Hc. reflexivity.
Qed.

Lemma validata_completes_witness :
  let args := Demo.args_of true false true 2 in
  let o := validata Demo.meter_str Demo.clock Demo.forward_ok Demo.loss_ok
             demo_three args Demo.world0 in
  print_freq args <> 0
  /\ (forall k s, demo_three !! k = Some s ->
                  batch_computes Demo.forward_ok Demo.loss_ok args k s = true)
  /\ exists st,
      value o = Ok st
      /\ ticks (final o) = 10%nat
      /\ forward_batches (events o) = [0; 1; 2]%nat.
Proof.
  cbn zeta.
  assert (Hpf : print_freq (Demo.args_of true false true 2) <> 0) by discriminate.
  assert (Hall : forall k s, demo_three !! k = Some s ->
                   batch_computes Demo.forward_ok Demo.loss_ok
                     (Demo.args_of true false true 2) k s = true).
  { intros [|[|[|k]]] s Hk; cbn in Hk; try discriminate Hk;
      injection Hk as <-; reflexivity. }
  split; [exact Hpf|]. split; [exact Hall|].
  destruct (validata_completes Demo.meter_str Demo.clock Demo.forward_ok Demo.loss_ok
              demo_three (Demo.args_of true false true 2) Demo.world0 Hpf Hall)
    as (st & Hv & Ht & Hf & _).
  exists st. split; [exact Hv|]. split; [exact Ht | exact Hf].
Defined.

(** X8: with [print_freq = 0] no progress line is ever printed and no run
    over a non-empty iterator ends normally; when the first batch is
    processed without error the run stops right after it with
    ZeroDivisionError (the remainder of [i % 0]), the model having been
    called for batch 0 only. *)
Theorem print_freq_zero_stops_after_first_batch
  (meter_str : AverageMeter -> string) (clock : nat -> Q)
  (forward : nat -> gmap string Tensor -> result Z)
  (loss_fn : nat -> Z -> Tensor -> result Q)
  (s : Sample) (rest : list Sample) (args : Args) (w : World) :
  print_freq args = 0 ->
  let o := validata meter_str clock forward loss_fn (s :: rest) args w in
  report_batches (events o) = []
  /\ is_ok (value o) = false
  /\ (batch_computes forward loss_fn args 0 s = true ->
      value o = Err ZeroDivisionError /\ forward_batches (events o) = [0%nat]).
Proof.
  intros Hpf. cbn zeta. rewrite validata_unfold. cbn [events value final].
  rewrite validata_loop_cons. cbn zeta.
  match goal with
  | |- context [process_batch ?a ?b ?c ?d ?e ?f ?g ?h] =>
      destruct (process_batch_events a b c d e f g h) as [_ Hrep];
      pose proof (fun st' => process_batch_ok_detail a b c d e f g st' h) as Hdet;
      pose proof (process_batch_success a b c d e f g h) as Hsucc;
      set (opb := process_batch a b c d e f g h) in *
  end.
  cbn zeta in Hrep, Hdet.
  assert (Hq : forall evs : list Event,
             report_batches evs = [] ->
             report_batches (EvPrint ("Running evaluation step." +:+ nl)
                :: events (_time clock (cuda args)
                     (set_grad_enabled false
                        (if cuda args
                         then set_model_layout Cuda (set_training false w)
                         else w)))
                ++ EvFetch 0 :: evs) = []).
  { intros evs Hevs.
    change (report_batches ([EvPrint ("Running evaluation step." +:+ nl)]
              ++ events (_time clock (cuda args)
                   (set_grad_enabled false
                      (if cuda args
                       then set_model_layout Cuda (set_training false w)
                       else w)))
              ++ [EvFetch 0] ++ evs) = []).
    rewrite !report_batches_app, time_report_batches, Hevs. reflexivity. }
  assert (Hf : forall evs : list Event,
             forward_batches evs = [0%nat] ->
             forward_batches (EvPrint ("Running evaluation step." +:+ nl)
                :: events (_time clock (cuda args)
                     (set_grad_enabled false
                        (if cuda args
                         then set_model_layout Cuda (set_training false w)
                         else w)))
                ++ EvFetch 0 :: evs) = [0%nat]).
  { intros evs Hevs.
    change (forward_batches ([EvPrint ("Running evaluation step." +:+ nl)]
              ++ events (_time clock (cuda args)
                   (set_grad_enabled false
                      (if cuda args
                       then set_model_layout Cuda (set_training false w)
                       else w)))
              ++ [EvFetch 0] ++ evs) = [0%nat]).
    rewrite !forward_batches_app, time_forward_batches, Hevs. reflexivity. }
  destruct (value opb) as [st1|e] eqn:Hpb.
  - rewrite maybe_report_outcome, Hpf. cbn [events final value Z.eqb].
    rewrite app_nil_r.
    split; [apply Hq, Hrep|]. split; [reflexivity|].
    intros _. split; [reflexivity|].
    apply Hf. now destruct (Hdet st1 eq_refl) as (_ & _ & _ & _ & _ & Hfw & _).
  - cbn [events final value].
    split; [apply Hq, Hrep|]. split; [reflexivity|].
    intros Hc. destruct Hsucc as [st' Hst']; [cbn; lia | cbn; lia | exact Hc |].
    discriminate Hst'.
Qed.

Lemma print_freq_zero_stops_after_first_batch_witness :
  let args := Demo.args_of true false true 0 in
  let o := validata Demo.meter_str Demo.clock Demo.forward_ok Demo.loss_ok
             demo_three args Demo.world0 in
  print_freq args = 0
  /\ batch_computes Demo.forward_ok Demo.loss_ok args 0 (Demo.batch 0) = true
  /\ report_batches (events o) = []
  /\ value o = Err ZeroDivisionError
  /\ forward_batches (events o) = [0%nat].
Proof.
  cbn zeta.
  assert (Hpf : print_freq (Demo.args_of true false true 0) = 0) by reflexivity.
  assert (Hc : batch_computes Demo.forward_ok Demo.loss_ok
                 (Demo.args_of true false true 0) 0 (Demo.batch 0) = true)
    by reflexivity.
  split; [exact Hpf|]. split; [exact Hc|].
  destruct (print_freq_zero_stops_after_first_batch Demo.meter_str Demo.clock
              Demo.forward_ok Demo.loss_ok (Demo.batch 0)
              [Demo.batch 1; Demo.batch 2] (Demo.args_of true false true 0)
              Demo.world0 Hpf)
    as (Hrep & _ & Hrun).
  destruct (Hrun Hc) as [Hv Hf].
  split; [exact Hrep|]. split; [exact Hv | exact Hf].
Defined.

(** X9: on the accelerator and on the optimized CPU backend a batch whose
    input dict lacks [video], or has [video] but lacks [audio], stops the
    iteration with KeyError for that key before the model is called; on
    the plain CPU backend the harness does not look into the dict at all and
    hands inputs and target over as they are. *)
Theorem missing_input_key
  (clock : nat -> Q) (forward : nat -> gmap string Tensor -> result Z)
  (loss_fn : nat -> Z -> Tensor -> result Q)
  (args : Args) (i : nat) (sample : Sample) (st : LoopState) (w : World) :
  0 <= count (data_time st) ->
  let o := process_batch clock forward loss_fn args i sample st w in
  match active_backend args with
  | PlainCPU => convert args sample = Ok (input sample, target sample)
  | _ =>
      (input sample !! "video" = None ->
       value o = Err (KeyError "video") /\ forward_batches (events o) = [])
      /\ (is_Some (input sample !! "video") -> input sample !! "audio" = None ->
          value o = Err (KeyError "audio") /\ forward_batches (events o) = [])
  end.
Proof.
  intros Hcount. cbn zeta.
  assert (Hkey : forall key,
             convert args sample = Err (KeyError key) ->
             value (process_batch clock forward loss_fn args i sample st w)
             = Err (KeyError key)
             /\ forward_batches
                  (events (process_batch clock forward loss_fn args i sample st w))
                = []).
  { intros key Hconv. rewrite process_batch_outcome. cbn zeta.
    rewrite update_positive by (assumption || lia). rewrite Hconv.
    cbn [value events]. split; [reflexivity | apply time_forward_batches]. }
  unfold active_backend.
  destruct (cuda args) eqn:Hc; [|destruct (mkldnn args) eqn:Hm].
  - split.
    + intros Hv. apply Hkey. unfold convert, getitem. now rewrite Hc, Hv.
    + intros [v Hv] Ha. apply Hkey. unfold convert, getitem. rewrite Hc, Hv.
      rewrite lookup_insert_ne by discriminate. now rewrite Ha.
  - split.
    + intros Hv. apply Hkey. unfold convert, getitem. now rewrite Hc, Hm, Hv.
    + intros [v Hv] Ha. apply Hkey. unfold convert, getitem. rewrite Hc, Hm, Hv.
      rewrite lookup_insert_ne by discriminate. now rewrite Ha.
  - now apply convert_plain.
Qed.

Lemma missing_input_key_witness :
  0 <= count (data_time demo_state)
  /\ input batch_without_video !! "video" = None
  /\ value (process_batch Demo.clock Demo.forward_ok Demo.loss_ok
              (Demo.args_of true true true 1) 0 batch_without_video
              demo_state Demo.world0)
     = Err (KeyError "video")
  /\ is_Some (input batch_without_audio !! "video")
  /\ input batch_without_audio !! "audio" = None
  /\ value (process_batch Demo.clock Demo.forward_ok Demo.loss_ok
              demo_cuda_args 0 batch_without_audio demo_state Demo.world0)
     = Err (KeyError "audio").
Proof.
  assert (Hc : 0 <= count (data_time demo_state)) by (cbn; lia).
  assert (Hv : input batch_without_video !! "video" = None)
    by (vm_compute; reflexivity).
  assert (Hs : is_Some (input batch_without_audio !! "video"))
    by (eexists; vm_compute; reflexivity).
  assert (Ha : input batch_without_audio !! "audio" = None)
    by (vm_compute; reflexivity).
  split; [exact Hc|]. split; [exact Hv|].
  split; [exact (proj1 (proj1 (missing_input_key Demo.clock Demo.forward_ok
                                 Demo.loss_ok (Demo.args_of true true true 1) 0
                                 batch_without_video demo_state Demo.world0 Hc) Hv))|].
  split; [exact Hs|]. split; [exact Ha|].
  exact (proj1 (proj2 (missing_input_key Demo.clock Demo.forward_ok Demo.loss_ok
                         demo_cuda_args 0 batch_without_audio demo_state
                         Demo.world0 Hc) Hs Ha)).
Defined.

(** * Timing under a clock that does not run backwards *)

Lemma update_sum_val (m m' : AverageMeter) (v : Q) (n : Z) :
  update m v n = Ok m' ->
  sum m' = (sum m + v * inject_Z n)%Q /\ val m' = v.
Proof.
  unfold update. destruct (count m + n =? 0); [discriminate|].
  intros [= <-]. split; reflexivity.
Qed.

Section Timing.

Variable meter_str : AverageMeter -> string.
Variable clock : nat -> Q.
Variable forward : nat -> gmap string Tensor -> result Z.
Variable loss_fn : nat -> Z -> Tensor -> result Q.
Variable args : Args.
Variable progress : ProgressMeter.
Hypothesis clock_monotone : monotone clock.

Lemma validata_loop_times (samples : list Sample) :
  forall (i : nat) (st st' : LoopState) (w : World) (e : nat),
    ticks w = S e -> end_ st = clock e -> times_ordered st ->
    value (validata_loop meter_str clock forward loss_fn args progress
             i samples st w) = Ok st' ->
    times_ordered st'.
Proof.
  induction samples as [|s rest IH]; intros i st st' w e Hw He Hinv.
  - cbn. intros [= <-]. exact Hinv.
  - rewrite validata_loop_cons. cbn zeta.
    pose proof (fun st1 => process_batch_ok_detail clock forward loss_fn args i s
                             st st1 w) as Hdet.
    cbn zeta in Hdet.
    set (opb := process_batch clock forward loss_fn args i s st w) in *.
    destruct (value opb) as [st1|err] eqn:Hpb; [|discriminate].
    destruct (Hdet st1 eq_refl) as (Hdt & Hbt & Hend & _ & Hticks & _).
    rewrite maybe_report_outcome. cbn [events final value].
    destruct (print_freq args =? 0); [discriminate|].
    cbn [events final value]. intros Hrec.
    apply (IH (S i) st1 st' (final opb) (S (S (S e)))); try assumption.
    + rewrite Hticks, Hw. reflexivity.
    + rewrite Hend, Hw. reflexivity.
    + destruct (update_sum_val _ _ _ _ Hdt) as [Hsd Hvd].
      destruct (update_sum_val _ _ _ _ Hbt) as [Hsb Hvb].
      destruct Hinv as (I1 & I2 & I3 & I4).
      pose proof (clock_monotone e) as M1.
      pose proof (clock_monotone (S e)) as M2.
      unfold times_ordered. rewrite Hsd, Hvd, Hsb, Hvb, Hw, He.
      change (inject_Z 1) with 1%Q.
      repeat split; lra.
Qed.

End Timing.

(** X10: if the clock never runs backwards, then after a run of [validata]
    that ends normally the time recorded for data loading is never negative
    and never more than the time recorded for whole batches: this holds for
    the last batch (the [val] fields) and for the totals (the [sum]
    fields). *)
Theorem data_time_within_batch_time
  (meter_str : AverageMeter -> string) (clock : nat -> Q)
  (forward : nat -> gmap string Tensor -> result Z)
  (loss_fn : nat -> Z -> Tensor -> result Q)
  (samples : list Sample) (args : Args) (w : World) (st : LoopState) :
  monotone clock ->
  value (validata meter_str clock forward loss_fn samples args w) = Ok st ->
  (0 <= sum (data_time st))%Q
  /\ (sum (data_time st) <= sum (batch_time st))%Q
  /\ (0 <= val (data_time st))%Q
  /\ (val (data_time st) <= val (batch_time st))%Q.
Proof.
  intros Hmono. rewrite validata_unfold. cbn [value]. intros Hst.
  refine (validata_loop_times meter_str clock forward loss_fn args _ Hmono
            samples 0 _ st _ (ticks w) _ _ _ Hst).
  - rewrite time_ticks. destruct (cuda args); reflexivity.
  - reflexivity.
  - unfold times_ordered. cbn. repeat split; lra.
Qed.

Lemma data_time_within_batch_time_witness :
  monotone Demo.clock
  /\ exists st,
      value (validata Demo.meter_str Demo.clock Demo.forward_ok Demo.loss_ok
               demo_three (Demo.args_of true false true 1) Demo.world0) = Ok st
      /\ (0 <= sum (data_time st))%Q
      /\ (sum (data_time st) <= sum (batch_time st))%Q.
Proof.
  assert (Hmono : monotone Demo.clock).
  { intros k. unfold Demo.clock. rewrite <- Zle_Qle. lia. }
  split; [exact Hmono|].
  destruct (value (validata Demo.meter_str Demo.clock Demo.forward_ok Demo.loss_ok
                     demo_three (Demo.args_of true false true 1) Demo.world0))
    as [st|e] eqn:E; [|vm_compute in E; discriminate E].
  exists st. split; [reflexivity|].
  destruct (data_time_within_batch_time Demo.meter_str Demo.clock Demo.forward_ok
              Demo.loss_ok demo_three (Demo.args_of true false true 1)
              Demo.world0 st Hmono E) as (H1 & H2 & _).
  split; [exact H1 | exact H2].
Defined.

(** * Which function [main] hands over to *)


Lemma validata_never_trains
  (meter_str : AverageMeter -> string) (clock : nat -> Q)
  (forward : nat -> gmap string Tensor -> result Z)
  (loss_fn : nat -> Z -> Tensor -> result Q)
  (samples : list Sample) (args : Args) (w : World) :
  Forall (fun ev => ev <> EvTrain)
         (events (validata meter_str clock forward loss_fn samples args w)).
Proof.
  rewrite validata_unfold. cbn [events].
  constructor; [discriminate|]. apply Forall_app. split.
  - destruct (cuda args); repeat constructor; discriminate.
  - refine (proj1 (hoare_validata_loop (fun _ => True)
                     (Forall (fun ev => ev <> EvTrain)) _ _
                     meter_str clock forward loss_fn args _ _ _ _ _
                     _ samples 0 _ _ Logic.I)).
    + constructor.
    + intros l1 l2 H1 H2. apply Forall_app. split; assumption.
    + intros w' _. split; [|exact Logic.I].
      destruct (cuda args); repeat constructor; discriminate.
    + intros j inp. apply hoare_call_model_any. intros; discriminate.
    + intros j out t. apply hoare_call_loss_any. intros; discriminate.
    + intros j. repeat constructor. discriminate.
    + intros j line. repeat constructor. discriminate.
Qed.

(** X12: with [--evaluate], [main] never enters [train], whatever the
    other flags, the test set and the way the run ends. *)
Theorem main_with_evaluate_never_trains
  (meter_str : AverageMeter -> string) (clock : nat -> Q)
  (forward : nat -> gmap string Tensor -> result Z)
  (loss_fn : nat -> Z -> Tensor -> result Q) (args_repr : Args -> string)
  (nc mk : bool) (pf : Z) (c avail skip installed : bool)
  (test_set : list Sample) (w : World) :
  let args := mkArgs nc mk true pf c in
  Forall (fun ev => ev <> EvTrain)
         (events (main meter_str clock forward loss_fn args_repr args avail skip installed test_set w)).
Proof.
  cbn zeta.
  destruct (negb nc && avail && mk) eqn:Hsel.
  - destruct nc, avail, mk; try discriminate Hsel.
    repeat constructor. discriminate.
  - rewrite main_evaluate by exact Hsel. cbn [events].
    destruct (backend_banner_prints
                (set_cuda (mkArgs nc mk true pf c) (negb nc && avail)) w)
      as [line ->].
    constructor; [discriminate|]. constructor; [discriminate|].
    apply validata_never_trains.
Qed.

(** * What the progress lines show *)

Lemma no_reports_ok (meter_str : AverageMeter -> string) (p : ProgressMeter)
      (evs : list Event) :
  report_batches evs = [] -> Forall (report_line_ok meter_str p) evs.
Proof.
  induction evs as [|ev rest IH]; [constructor|].
  destruct ev; cbn; intros H; try discriminate H;
    (constructor; [exact Logic.I | apply IH, H]).
Qed.

Lemma update_name (m m' : AverageMeter) (v : Q) (n : Z) :
  update m v n = Ok m' -> name m' = name m.
Proof.
  unfold update. destruct (count m + n =? 0); [discriminate|].
  intros [= <-]. reflexivity.
Qed.

Section Lines.

Variable meter_str : AverageMeter -> string.
Variable clock : nat -> Q.
Variable forward : nat -> gmap string Tensor -> result Z.
Variable loss_fn : nat -> Z -> Tensor -> result Q.
Variable args : Args.
Variable progress : ProgressMeter.

Lemma validata_loop_lines (samples : list Sample) :
  forall (i : nat) (st : LoopState) (w : World),
    losses st = AverageMeter_init "Loss" ":.4e" ->
    count (batch_time st) = Z.of_nat i -> count (data_time st) = Z.of_nat i ->
    name (batch_time st) = "Time" -> name (data_time st) = "Data" ->
    Forall (report_line_ok meter_str progress)
           (events (validata_loop meter_str clock forward loss_fn args progress
                      i samples st w)).
Proof.
  induction samples as [|s rest IH]; intros i st w Hl Hcb Hcd Hnb Hnd.
  - constructor.
  - rewrite validata_loop_cons. cbn zeta.
    destruct (process_batch_events clock forward loss_fn args i s st w) as [_ Hrep].
    pose proof (fun st1 => process_batch_ok_detail clock forward loss_fn args i s
                             st st1 w) as Hdet.
    pose proof (fun st1 => process_batch_ok clock forward loss_fn args i s
                             st st1 w) as Hok.
    cbn zeta in Hdet.
    set (opb := process_batch clock forward loss_fn args i s st w) in *.
    apply (no_reports_ok meter_str progress) in Hrep.
    destruct (value opb) as [st1|e] eqn:Hpb.
    + destruct (Hdet st1 eq_refl) as (Hdt & Hbt & _ & Hls & _).
      destruct (Hok st1 eq_refl) as (Hcb1 & Hcd1 & _ & _).
      apply update_name in Hdt, Hbt.
      rewrite maybe_report_outcome. cbn [events final value].
      assert (Hevr : Forall (report_line_ok meter_str progress)
                       (if print_freq args =? 0 then []
                        else if report_due args i
                             then [EvReport i (display_line meter_str progress i
                                     [batch_time st1; data_time st1; losses st1])]
                             else [])).
      { destruct (print_freq args =? 0); [constructor|].
        destruct (report_due args i); [|constructor].
        constructor; [|constructor]. cbn.
        exists (batch_time st1), (data_time st1).
        rewrite Hls, Hl, Hcb1, Hcd1, Hcb, Hcd, Hbt, Hdt, Hnb, Hnd.
        repeat split. }
      destruct (print_freq args =? 0); cbn [events final value].
      * constructor; [exact Logic.I|]. apply Forall_app. split; assumption.
      * constructor; [exact Logic.I|].
        apply Forall_app. split; [assumption|].
        apply Forall_app. split; [assumption|].
        apply IH; try congruence; lia.
    + cbn [events]. constructor; [exact Logic.I | assumption].
Qed.

End Lines.

(** X13: in every run of [validata], normal or not, each progress line is
    the one [display] builds for its batch index from the [Time] and [Data]
    meters after that batch (each with that index plus one updates) and
    from the [Loss] meter exactly as it was built: the last column of every
    line is that of a meter that has never been updated. *)
Theorem report_lines_show_fresh_loss
  (meter_str : AverageMeter -> string) (clock : nat -> Q)
  (forward : nat -> gmap string Tensor -> result Z)
  (loss_fn : nat -> Z -> Tensor -> result Q)
  (samples : list Sample) (args : Args) (w : World) :
  Forall (report_line_ok meter_str
            (ProgressMeter_init (Z.of_nat (length samples)) "Test: "))
         (events (validata meter_str clock forward loss_fn samples args w)).
Proof.
  rewrite validata_unfold. cbn [events].
  constructor; [exact Logic.I|]. apply Forall_app. split.
  - apply no_reports_ok, time_report_batches.
  - apply validata_loop_lines; reflexivity.
Qed.

(** * The hooks that reach the trainer *)

(** X14: [train] reaches [trainer.train] exactly when [--skip-tensorboard]
    is given or tensorboardX is not installed, and then the task carries
    the logging hook, the progress bar hook and the checkpoint hook, in
    this order; a missing tensorboardX costs one printed notice.  When
    tensorboardX is installed and [--skip-tensorboard] is absent, [train]
    ends in NameError for [TensorboardPlotHook] (a name the file never
    imports) before the clock is read for the checkpoint directory.  So the
    tensorboard hook is never among the hooks of a task that is trained. *)
Theorem train_hooks (clock : nat -> Q) (args : Args)
        (skip_tensorboard tensorboardX_installed : bool) (w : World) :
  let o := train_steps clock args skip_tensorboard tensorboardX_installed w in
  (if negb skip_tensorboard && tensorboardX_installed
   then value o = Err (NameError "TensorboardPlotHook")
        /\ events o = [] /\ final o = w
   else value o = Ok [LossLrMeterLoggingHook (print_freq args); ProgressBarHook;
                      CheckpointHook (clock (ticks w))]
        /\ events o
           = (if skip_tensorboard then []
              else [EvPrint "tensorboardX not installed, skipping tensorboard hooks"])
             ++ [EvClock (ticks w) (pending w)])
  /\ match value o with
     | Ok hooks => Forall (fun h => h <> TensorboardPlotHook) hooks
     | Err _ => True
     end.
Proof.
  cbn zeta.
  assert (Hload : forall w', load_global "TensorboardPlotHook" w'
                             = mkOutcome [] w' (Err (NameError "TensorboardPlotHook")))
    by (intros w'; vm_compute; reflexivity).
  destruct skip_tensorboard, tensorboardX_installed;
    unfold train_steps, bind; cbn -[load_global]; rewrite ?Hload;
    cbn -[load_global]; repeat split; repeat constructor; discriminate.
Qed.

(** * Where the model is after an evaluation run *)

Lemma validata_frame
  (meter_str : AverageMeter -> string) (clock : nat -> Q)
  (forward : nat -> gmap string Tensor -> result Z)
  (loss_fn : nat -> Z -> Tensor -> result Q)
  (samples : list Sample) (args : Args) (w : World) :
  let o := validata meter_str clock forward loss_fn samples args w in
  head_replaced (final o) = head_replaced w
  /\ model_layout (final o) = (if cuda args then Cuda else model_layout w).
Proof.
  cbn zeta. rewrite validata_unfold. cbn [final].
  set (w1 := if cuda args then set_model_layout Cuda (set_training false w) else w).
  pose (I := fun w' => head_replaced w' = head_replaced w1
                       /\ model_layout w' = model_layout w1).
  match goal with
  | |- context [validata_loop ?a ?b ?c ?d ?e ?f ?g ?h ?i ?j] =>
      assert (H : hoare I (fun _ => True) (validata_loop a b c d e f g h i))
  end.
  { apply hoare_validata_loop; try (intros; exact Logic.I).
    - intros w' [H1 H2]. split; [exact Logic.I|].
      destruct (cuda args); split; assumption.
    - intros j inp w' [H1 H2]. split; [exact Logic.I|].
      unfold call_model, issue_if. cbn. destruct (is_cuda _); split; assumption.
    - intros j out t w' [H1 H2]. split; [exact Logic.I|].
      unfold call_loss, issue_if. cbn. destruct (is_cuda _); split; assumption. }
  match type of H with
  | hoare _ _ (validata_loop ?a ?b ?c ?d ?e ?f ?g ?h ?i) =>
      match goal with
      | |- context [validata_loop a b c d e f g h i ?j] =>
          destruct (H j) as [_ [H1 H2]]
      end
  end.
  { subst I. cbn beta. destruct (cuda args); split; reflexivity. }
  change (head_replaced (set_grad_enabled ?g ?x)) with (head_replaced x).
  change (model_layout (set_grad_enabled ?g ?x)) with (model_layout x).
  rewrite H1, H2. subst w1. destruct (cuda args); split; reflexivity.
Qed.

(** X15: after [main] with [--evaluate] has passed backend selection, and
    however the evaluation run then ends, the model is on the accelerator
    when that backend was chosen, converted to MKLDNN when the optimized
    CPU backend was chosen, and where it was on the plain CPU backend; the
    head has been replaced exactly on the optimized CPU backend. *)
Theorem evaluation_model_placement
  (meter_str : AverageMeter -> string) (clock : nat -> Q)
  (forward : nat -> gmap string Tensor -> result Z)
  (loss_fn : nat -> Z -> Tensor -> result Q) (args_repr : Args -> string)
  (nc mk : bool) (pf : Z) (c avail skip installed : bool)
  (test_set : list Sample) (w : World) :
  negb nc && avail && mk = false ->
  let args := mkArgs nc mk true pf c in
  let o := main meter_str clock forward loss_fn args_repr args avail skip installed test_set w in
  model_layout (final o)
  = (if negb nc && avail then Cuda else if mk then Mkldnn else model_layout w)
  /\ head_replaced (final o) = (if mk then true else head_replaced w).
Proof.
  intros Hsel. cbn zeta. rewrite main_evaluate by exact Hsel. cbn [final].
  match goal with
  | |- context [validata ?a ?b ?c ?d ?e ?f ?g] =>
      destruct (validata_frame a b c d e f g) as [Hh Hm]
  end.
  rewrite Hh, Hm. cbn [cuda set_cuda].
  destruct (negb nc && avail), mk; split; reflexivity.
Qed.

Lemma evaluation_model_placement_witness :
  let o := main Demo.meter_str Demo.clock Demo.forward_fail_at_1 Demo.loss_ok
                Demo.args_repr (mkArgs true true true 1 false) true false true
                demo_three Demo.world0 in
  negb true && true && true = false
  /\ model_layout (final o) = Mkldnn
  /\ head_replaced (final o) = true.
Proof.
  cbn zeta.
  assert (Hsel : negb true && true && true = false) by reflexivity.
  split; [exact Hsel|].
  exact (evaluation_model_placement Demo.meter_str Demo.clock Demo.forward_fail_at_1
           Demo.loss_ok Demo.args_repr true true 1 false true false true demo_three
           Demo.world0 Hsel).
Defined.

(** * [_time] at the batch boundaries *)

Lemma marks_app (l1 l2 : list Event) : marks (l1 ++ l2) = marks l1 ++ marks l2.
Proof. apply omap_app. Qed.

Lemma time_marks_events (clock : nat -> Q) (b : bool) (w : World) :
  marks (events (_time clock b w)) = time_marks b.
Proof. destruct b; reflexivity. Qed.

Lemma process_batch_starts_with_time
  (clock : nat -> Q) (forward : nat -> gmap string Tensor -> result Z)
  (loss_fn : nat -> Z -> Tensor -> result Q)
  (args : Args) (i : nat) (sample : Sample) (st : LoopState) (w : World) :
  exists rest,
    events (process_batch clock forward loss_fn args i sample st w)
    = events (_time clock (cuda args) w) ++ rest.
Proof.
  rewrite process_batch_outcome. cbn zeta.
  repeat match goal with
         | |- context [match ?r with Ok _ => _ | Err _ => _ end] => destruct r
         end;
    cbn [events]; eexists; try reflexivity; now rewrite app_nil_r.
Qed.

Lemma process_batch_marks
  (clock : nat -> Q) (forward : nat -> gmap string Tensor -> result Z)
  (loss_fn : nat -> Z -> Tensor -> result Q)
  (args : Args) (i : nat) (sample : Sample) (st : LoopState) (w : World) :
  0 <= count (data_time st) -> 0 <= count (batch_time st) ->
  batch_computes forward loss_fn args i sample = true ->
  marks (events (process_batch clock forward loss_fn args i sample st w))
  = time_marks (cuda args) ++ [MForward i; MLoss i]
    ++ time_marks (cuda args) ++ time_marks (cuda args).
Proof.
  intros Hdt Hbt Hc. unfold batch_computes in Hc.
  rewrite process_batch_outcome. cbn zeta.
  rewrite !update_positive by (assumption || lia).
  destruct (convert args sample) as [conv|e]; [|discriminate].
  destruct (forward i (fst conv)) as [out|e]; [|discriminate].
  destruct (loss_fn i out (snd conv)) as [l|e]; [|discriminate].
  rewrite update_positive by (assumption || lia).
  cbn [events]. rewrite !marks_app, !time_marks_events. reflexivity.
Qed.

Section Skeleton.

Variable meter_str : AverageMeter -> string.
Variable clock : nat -> Q.
Variable forward : nat -> gmap string Tensor -> result Z.
Variable loss_fn : nat -> Z -> Tensor -> result Q.
Variable args : Args.
Variable progress : ProgressMeter.

Lemma validata_loop_marks (samples : list Sample) :
  print_freq args <> 0 ->
  forall (i : nat) (st : LoopState) (w : World),
    0 <= count (data_time st) -> 0 <= count (batch_time st) ->
    (forall k s, samples !! k = Some s ->
                 batch_computes forward loss_fn args (i + k) s = true) ->
    marks (events (validata_loop meter_str clock forward loss_fn args progress
                     i samples st w))
    = flat_map (batch_marks (cuda args)) (seq i (length samples)).
Proof.
  intros Hpf. apply Z.eqb_neq in Hpf.
  induction samples as [|s rest IH]; intros i st w Hdt Hbt Hall.
  - reflexivity.
  - rewrite validata_loop_cons. cbn zeta.
    assert (Hs : batch_computes forward loss_fn args i s = true).
    { specialize (Hall 0%nat s eq_refl). now rewrite Nat.add_0_r in Hall. }
    destruct (process_batch_success clock forward loss_fn args i s st w Hdt Hbt Hs)
      as [st1 Hpb].
    pose proof (process_batch_marks clock forward loss_fn args i s st w Hdt Hbt Hs)
      as Hmarks.
    destruct (process_batch_ok clock forward loss_fn args i s st st1 w Hpb)
      as (Hbt1 & Hdt1 & _ & _).
    set (opb := process_batch clock forward loss_fn args i s st w) in *.
    rewrite Hpb, maybe_report_outcome, Hpf. cbn [events final value].
    change (EvFetch i :: ?x) with ([EvFetch i] ++ x).
    rewrite !marks_app, Hmarks.
    rewrite (IH (S i) st1 (final opb)); [|lia|lia|].
    2:{ intros k s' Hk. replace (S i + k)%nat with (i + S k)%nat by lia.
        apply Hall. exact Hk. }
    replace (marks (if report_due args i then _ else [])) with (@nil Mark)
      by (destruct (report_due args i); reflexivity).
    cbn [length seq flat_map]. unfold batch_marks at 2.
    cbn [marks omap mark_of app]. rewrite <- !app_assoc. reflexivity.
Qed.

End Skeleton.

Lemma validata_marks
  (meter_str : AverageMeter -> string) (clock : nat -> Q)
  (forward : nat -> gmap string Tensor -> result Z)
  (loss_fn : nat -> Z -> Tensor -> result Q)
  (samples : list Sample) (args : Args) (w : World) :
  print_freq args <> 0 ->
  (forall k s, samples !! k = Some s ->
               batch_computes forward loss_fn args k s = true) ->
  marks (events (validata meter_str clock forward loss_fn samples args w))
  = run_marks (cuda args) (length samples).
Proof.
  intros Hpf Hall. rewrite validata_unfold. cbn [events].
  match goal with
  | |- marks (?e :: ?a ++ ?b) = _ =>
      change (marks ([e] ++ a ++ b) = run_marks (cuda args) (length samples))
  end.
  rewrite !marks_app, time_marks_events.
  rewrite validata_loop_marks; [reflexivity | exact Hpf | cbn; lia | cbn; lia | exact Hall].
Qed.

(** In every run of [validata]: on the accelerator each clock reading comes
    directly after a barrier, on the CPU backends there is no barrier. *)
Lemma validata_barriers
  (meter_str : AverageMeter -> string) (clock : nat -> Q)
  (forward : nat -> gmap string Tensor -> result Z)
  (loss_fn : nat -> Z -> Tensor -> result Q)
  (samples : list Sample) (args : Args) (w : World) :
  let evs := events (validata meter_str clock forward loss_fn samples args w) in
  match active_backend args with
  | Accelerator => cuda args = true /\ barriered evs
  | _ => cuda args = false /\ Forall not_sync evs
  end.
Proof.
  cbn zeta. rewrite validata_unfold. cbn [events].
  unfold active_backend.
  destruct (cuda args) eqn:Hc.
  - split; [reflexivity|].
    match goal with
    | |- barriered (?e :: ?a ++ ?b) => apply (barriered_app (e :: a) b)
    end; [reflexivity|].
    now apply validata_loop_barriered.
  - match goal with
    | |- context [Forall not_sync (?e :: ?a ++ ?b)] =>
        assert (Hall : Forall not_sync (e :: a ++ b))
    end.
    { constructor; [exact Logic.I|].
      apply Forall_app. split; [repeat constructor|].
      now apply validata_loop_no_sync. }
    destruct (mkldnn args); (split; [reflexivity | exact Hall]).
Qed.

Lemma main_evaluate_marks
  (meter_str : AverageMeter -> string) (clock : nat -> Q)
  (forward : nat -> gmap string Tensor -> result Z)
  (loss_fn : nat -> Z -> Tensor -> result Q) (args_repr : Args -> string)
  (nc mk : bool) (pf : Z) (c avail skip installed : bool)
  (samples : list Sample) (w : World) :
  negb nc && avail && mk = false ->
  pf <> 0 ->
  (forall k s, samples !! k = Some s ->
               batch_computes forward loss_fn
                 (set_cuda (mkArgs nc mk true pf c) (negb nc && avail)) k s = true) ->
  marks (events (main meter_str clock forward loss_fn args_repr
                   (mkArgs nc mk true pf c) avail skip installed samples w))
  = run_marks (negb nc && avail) (length samples).
Proof.
  intros Hsel Hpf Hall. rewrite main_evaluate by exact Hsel. cbn [events].
  destruct (backend_banner_prints
              (set_cuda (mkArgs nc mk true pf c) (negb nc && avail)) w)
    as [line ->].
  match goal with
  | |- marks (?e :: [?e'] ++ ?b) = _ =>
      change (marks ([e; e'] ++ b) = run_marks (negb nc && avail) (length samples))
  end.
  rewrite marks_app. cbn [marks omap mark_of app].
  fold (marks (events (validata meter_str clock forward loss_fn samples
                         (set_cuda (mkArgs nc mk true pf c) (negb nc && avail))
                         (if mk
                          then set_head_replaced true
                                 (set_model_layout Mkldnn (set_training false w))
                          else w)))).
  rewrite validata_marks; [reflexivity | exact Hpf | exact Hall].
Qed.

(** C2: [_time(True)] first waits for the accelerator (after which nothing
    issued earlier is outstanding), then reads the clock and returns the
    reading; [_time(False)] only reads the clock.  In a run of [validata]
    the flag passed is [args.cuda], which is set exactly when the backend is
    the accelerator: on the accelerator every clock reading of the run comes
    directly after a barrier, on the CPU backends the run has no barrier.
    The loop calls [_time] at the batch boundaries: every iteration begins
    with such a call, and an iteration that ends normally has recorded the
    first reading of the iteration minus [end] as data time, the second
    minus [end] as batch time, and the third as the new [end].  A run whose
    batches all compute consists, as far as barriers, clock readings,
    fetches and calls go, of one call of [_time] before the first batch and
    then per batch: the fetch, a call of [_time], the model call, the loss
    call and two calls of [_time]; each call of [_time] waits exactly when
    the backend that [main] selected is the accelerator. *)
Theorem time_waits_for_backend
  (meter_str : AverageMeter -> string) (clock : nat -> Q)
  (forward : nat -> gmap string Tensor -> result Z)
  (loss_fn : nat -> Z -> Tensor -> result Q)
  (samples : list Sample) (args : Args) (w : World) :
  _time clock true w =
    mkOutcome [EvSync (pending w); EvClock (ticks w) 0]
              (set_ticks (S (ticks w)) (set_pending 0 w))
              (Ok (clock (ticks w)))
  /\ _time clock false w =
    mkOutcome [EvClock (ticks w) (pending w)]
              (set_ticks (S (ticks w)) w)
              (Ok (clock (ticks w)))
  /\ (let evs := events (validata meter_str clock forward loss_fn samples args w) in
      match active_backend args with
      | Accelerator => cuda args = true /\ barriered evs
      | _ => cuda args = false /\ Forall not_sync evs
      end)
  /\ (forall (i : nat) (sample : Sample) (st : LoopState),
        exists rest,
          events (process_batch clock forward loss_fn args i sample st w)
          = events (_time clock (cuda args) w) ++ rest)
  /\ (forall (i : nat) (sample : Sample) (st st' : LoopState),
        value (process_batch clock forward loss_fn args i sample st w) = Ok st' ->
        val (data_time st') = (clock (ticks w) - end_ st)%Q
        /\ val (batch_time st') = (clock (S (ticks w)) - end_ st)%Q
        /\ end_ st' = clock (S (S (ticks w))))
  /\ (print_freq args <> 0 ->
      (forall k s, samples !! k = Some s ->
                   batch_computes forward loss_fn args k s = true) ->
      marks (events (validata meter_str clock forward loss_fn samples args w))
      = run_marks (cuda args) (length samples))
  /\ (forall (args_repr : Args -> string) (avail skip installed : bool)
             (args' : Args) (b : Backend),
        value (select_backend args avail w) = Ok (args', b) ->
        evaluate args = true ->
        print_freq args <> 0 ->
        (forall k s, samples !! k = Some s ->
                     batch_computes forward loss_fn args' k s = true) ->
        marks (events (main meter_str clock forward loss_fn args_repr args avail
                         skip installed samples w))
        = run_marks (is_accelerator b) (length samples)).
Proof.
  split; [reflexivity|]. split; [reflexivity|].
  split; [apply validata_barriers|].
  split; [intros i sample st; apply process_batch_starts_with_time|].
  split; [|split].
  - intros i sample st st' Hok.
    destruct (process_batch_ok_detail clock forward loss_fn args i sample st st' w Hok)
      as (Hdt & Hbt & Hend & _).
    apply update_sum_val in Hdt, Hbt.
    destruct Hdt as [_ Hdt]. destruct Hbt as [_ Hbt].
    split; [exact Hdt|]. split; [exact Hbt | exact Hend].
  - apply validata_marks.
  - intros args_repr avail skip installed args' b Hsel Hev Hpf Hall.
    destruct args as [nc mk ev pf c]. cbn in Hev, Hpf. subst ev.
    rewrite select_backend_value_flags in Hsel.
    destruct (negb nc && avail && mk) eqn:Hboth; [discriminate Hsel|].
    injection Hsel as <- <-.
    replace (is_accelerator _) with (negb nc && avail)
      by (destruct (negb nc && avail), mk; reflexivity).
    now apply main_evaluate_marks.
Qed.

Lemma time_waits_for_backend_witness :
  let args := Demo.args_of false false true 1 in
  value (select_backend args true Demo.world0) = Ok (demo_cuda_args, Accelerator)
  /\ evaluate args = true
  /\ print_freq args <> 0
  /\ (forall k s, demo_three !! k = Some s ->
                  batch_computes Demo.forward_ok Demo.loss_ok demo_cuda_args k s = true)
  /\ marks (events (main Demo.meter_str Demo.clock Demo.forward_ok Demo.loss_ok
                      Demo.args_repr args true false true demo_three Demo.world0))
     = [MSync; MClock;
        MFetch 0; MSync; MClock; MForward 0; MLoss 0; MSync; MClock; MSync; MClock;
        MFetch 1; MSync; MClock; MForward 1; MLoss 1; MSync; MClock; MSync; MClock;
        MFetch 2; MSync; MClock; MForward 2; MLoss 2; MSync; MClock; MSync; MClock].
Proof.
  cbn zeta.
  assert (Hsel : value (select_backend (Demo.args_of false false true 1) true
                          Demo.world0)
                 = Ok (demo_cuda_args, Accelerator)) by reflexivity.
  assert (Hev : evaluate (Demo.args_of false false true 1) = true) by reflexivity.
  assert (Hpf : print_freq (Demo.args_of false false true 1) <> 0) by discriminate.
  assert (Hall : forall k s, demo_three !! k = Some s ->
                   batch_computes Demo.forward_ok Demo.loss_ok demo_cuda_args k s
                   = true).
  { intros [|[|[|k]]] s Hk; cbn in Hk; try discriminate Hk;
      injection Hk as <-; vm_compute; reflexivity. }
  split; [exact Hsel|]. split; [exact Hev|]. split; [exact Hpf|].
  split; [exact Hall|].
  exact (proj2 (proj2 (proj2 (proj2 (proj2 (proj2
           (time_waits_for_backend Demo.meter_str Demo.clock Demo.forward_ok
              Demo.loss_ok demo_three (Demo.args_of false false true 1)
              Demo.world0))))))
           Demo.args_repr true false true demo_cuda_args Accelerator
           Hsel Hev Hpf Hall).
Defined.
